(** * Candidate-job matching engine of aibasedresumescreening

    Shallow embedding of [JobMatcher.calculate_match_score_sync]
    (src/ai_processor.py) and of [DataProcessor._load_jobs_from_csv],
    [DataProcessor._pre_filter_jobs] and
    [DataProcessor.match_candidate_with_jobs] (src/data_processor.py).
    Further: [ResumeProcessor.extract_experience] and [extract_education],
    [JobMatcher.generate_global_matches] with [_batch_analyze_categories],
    [calculate_years_of_experience], [determine_experience_level] and
    [get_highest_education_level] (src/ai_processor.py); the catalog cache
    [_get_cached_jobs], [_parse_experience], [get_job_categories] and
    [get_skills_distribution] (src/data_processor.py); [allowed_file]
    (src/app.py).

    Modelling conventions:
    - Python floats are modelled as exact rationals [Q]; every score the code
      computes is a ratio of two lengths times 100, plus or minus 10, so the
      model records the intended arithmetic without rounding.
    - Python sets of strings are lists without duplicates, in first-insertion
      order.  CPython iterates a set in an order fixed by the hashes of its
      elements; the model fixes one order, so any statement about the order of
      set-derived lists is about this chosen order only.
    - [str.lower] and the whitespace of [str.strip]/[str.split] are the ASCII
      ones.
    - An exception raised inside a [try] block is [None] of an option. *)

From Stdlib Require Import Bool List Arith ZArith QArith Lia Lqa.
From Stdlib Require Import Strings.String Strings.Ascii.
From Stdlib Require Import Sorting.Permutation Sorting.Sorted.
Import ListNotations.

Set Warnings "-register-all".
Open Scope nat_scope.
Open Scope list_scope.

(** ** Error monad: [None] is a raised exception *)

Definition obind {A B} (m : option A) (k : A -> option B) : option B :=
  match m with Some a => k a | None => None end.

Notation "x <- m ;; k" := (obind m (fun x => k))
  (at level 61, m at next level, right associativity).

Fixpoint mapM {A B} (f : A -> option B) (l : list A) : option (list B) :=
  match l with
  | [] => Some []
  | a :: r => b <- f a ;; bs <- mapM f r ;; Some (b :: bs)
  end.

(** ** Python string methods (ASCII) *)

Module PyStr.

Definition lower_char (c : ascii) : ascii :=
  let n := nat_of_ascii c in
  if (65 <=? n) && (n <=? 90) then ascii_of_nat (n + 32) else c.

(** [str.lower] *)
Fixpoint lower (s : string) : string :=
  match s with
  | EmptyString => EmptyString
  | String c r => String (lower_char c) (lower r)
  end.

(** the characters removed by [str.strip()] and split on by [str.split()] *)
Definition is_ws (c : ascii) : bool :=
  let n := nat_of_ascii c in
  (n =? 32) || ((9 <=? n) && (n <=? 13)).

Fixpoint lstrip_by (p : ascii -> bool) (s : string) : string :=
  match s with
  | EmptyString => EmptyString
  | String c r => if p c then lstrip_by p r else s
  end.

Fixpoint rev_str (s : string) : string :=
  match s with
  | EmptyString => EmptyString
  | String c r => append (rev_str r) (String c EmptyString)
  end.

(** [str.strip(chars)] with the set of characters given as a predicate *)
Definition strip_by (p : ascii -> bool) (s : string) : string :=
  rev_str (lstrip_by p (rev_str (lstrip_by p s))).

(** [str.strip()] *)
Definition strip (s : string) : string := strip_by is_ws s.

Definition in_chars (cs : string) (c : ascii) : bool :=
  existsb (Ascii.eqb c) (list_ascii_of_string cs).

(** [str.split(sep)] for a one-character separator: never empty *)
Fixpoint split (sep : ascii) (s : string) : list string :=
  match s with
  | EmptyString => [EmptyString]
  | String c r =>
      let rest := split sep r in
      if Ascii.eqb c sep then EmptyString :: rest
      else match rest with
           | h :: t => String c h :: t
           | [] => [String c EmptyString]
           end
  end.

(** [str.split()]: runs of whitespace separate, empty words dropped *)
Definition split_ws (s : string) : list string :=
  let fix go (s : string) (cur : string) : list string :=
    match s with
    | EmptyString => if String.eqb cur EmptyString then [] else [rev_str cur]
    | String c r =>
        if is_ws c then
          (if String.eqb cur EmptyString then [] else [rev_str cur]) ++ go r EmptyString
        else go r (String c cur)
    end in
  go s EmptyString.

(** [needle in hay] *)
Fixpoint contains (needle hay : string) : bool :=
  if String.prefix needle hay then true
  else match hay with
       | EmptyString => false
       | String _ r => contains needle r
       end.

Fixpoint count_char (c : ascii) (s : string) : nat :=
  match s with
  | EmptyString => 0
  | String d r => (if Ascii.eqb d c then 1 else 0) + count_char c r
  end.

Definition digit_char (n : nat) : ascii := ascii_of_nat (48 + n).

Fixpoint nat_digits (fuel n : nat) (acc : string) : string :=
  match fuel with
  | 0 => acc
  | S f =>
      let acc' := String (digit_char (n mod 10)) acc in
      if n <? 10 then acc' else nat_digits f (n / 10) acc'
  end.

(** [str(n)] for a non-negative integer *)
Definition of_nat (n : nat) : string := nat_digits (S n) n EmptyString.

(** [str(z)] for an integer *)
Definition of_Z (z : Z) : string :=
  if (z <? 0)%Z then String "-" (of_nat (Z.to_nat (- z))) else of_nat (Z.to_nat z).

Definition is_digit (c : ascii) : bool :=
  let n := nat_of_ascii c in (48 <=? n) && (n <=? 57).

(** [str.isdigit()] *)
Definition isdigit (s : string) : bool :=
  match s with
  | EmptyString => false
  | _ => forallb is_digit (list_ascii_of_string s)
  end.

(** [int(s)] for a string of decimal digits *)
Definition to_nat (s : string) : nat :=
  fold_left (fun acc c => acc * 10 + (nat_of_ascii c - 48)) (list_ascii_of_string s) 0.

End PyStr.

(** ** Python values and sets of strings *)

(** The JSON-like values a caller can hand to the scorer. *)
Inductive pyval : Type :=
| PNone
| PInt (z : Z)
| PStr (s : string)
| PList (l : list pyval)
| PDict (kvs : list (string * pyval)).

(** truthiness, as in [if v:] *)
Definition truthy (v : pyval) : bool :=
  match v with
  | PNone => false
  | PInt z => negb (Z.eqb z 0)
  | PStr s => negb (String.eqb s EmptyString)
  | PList l => negb (Nat.eqb (List.length l) 0)
  | PDict kvs => negb (Nat.eqb (List.length kvs) 0)
  end.

Definition is_dict (v : pyval) : bool :=
  match v with PDict _ => true | _ => false end.

Definition dict_get (kvs : list (string * pyval)) (k : string) (dflt : pyval) : pyval :=
  match find (fun kv => String.eqb (fst kv) k) kvs with
  | Some (_, v) => v
  | None => dflt
  end.

(** [v.get(k, dflt)]: an [AttributeError] unless [v] is a dict *)
Definition py_get (v : pyval) (k : string) (dflt : pyval) : option pyval :=
  match v with
  | PDict kvs => Some (dict_get kvs k dflt)
  | _ => None
  end.

(** [for x in v]: strings yield their characters, dicts their keys *)
Definition py_iter (v : pyval) : option (list pyval) :=
  match v with
  | PStr s => Some (map (fun c => PStr (String c EmptyString)) (list_ascii_of_string s))
  | PList l => Some l
  | PDict kvs => Some (map (fun kv => PStr (fst kv)) kvs)
  | _ => None
  end.

(** [x.lower()] *)
Definition py_lower (v : pyval) : option string :=
  match v with PStr s => Some (PyStr.lower s) | _ => None end.

Definition mem (x : string) (l : list string) : bool := existsb (String.eqb x) l.

(** a set comprehension [{e for x in l}]: add in iteration order *)
Definition set_of (l : list string) : list string :=
  fold_left (fun acc x => if mem x acc then acc else acc ++ [x]) l [].

Definition set_inter (a b : list string) : list string := filter (fun x => mem x b) a.
Definition set_diff (a b : list string) : list string := filter (fun x => negb (mem x b)) a.

(** ** [JobMatcher.calculate_match_score_sync] (src/ai_processor.py) *)

Open Scope string_scope.

(** the [analysis] dict *)
Record Analysis : Type := mkAnalysis {
  match_score : Q;
  summary : string;
  strengths : list string;
  gaps : list string;
  recommendations : list string;
  matching_skills : list string;
  missing_skills : list string
}.

(** the dict returned by the scorer *)
Record MatchScore : Type := mkMatchScore {
  total_score : Q;
  skill_match : Q;
  experience_match : Q;
  education_match : Q;
  ai_analysis : Analysis
}.

(** Python's [min(a, b)] and [max(a, b)]: the first argument unless the
    second is strictly better *)
Definition py_min (a b : Q) : Q := if Qle_bool a b then a else b.
Definition py_max (a b : Q) : Q := if Qle_bool b a then a else b.

(** the shape a non-dict [job_requirements] is replaced with *)
Definition empty_requirements : pyval :=
  PDict [("skills", PList []); ("experience", PList []); ("education", PList [])].

(** [if isinstance(required_skills, str): required_skills = [s.strip() for s in ...split(',')]] *)
Definition normalize_required (v : pyval) : pyval :=
  match v with
  | PStr s => PList (map (fun t => PStr (PyStr.strip t)) (PyStr.split "," s))
  | _ => v
  end.

(** [{skill.lower() for skill in v}] *)
Definition lower_set (v : pyval) : option (list string) :=
  xs <- py_iter v ;; ls <- mapM py_lower xs ;; Some (set_of ls).

(** [skill_match_score]: [(len(matching)/len(required) if required else 0.5) * 100] *)
Definition skill_match_score (req matching : list string) : Q :=
  ((if Nat.eqb (List.length req) 0 then 1 # 2
    else inject_Z (Z.of_nat (List.length matching)) / inject_Z (Z.of_nat (List.length req)))
   * 100)%Q.

Definition base_analysis (req matching missing : list string) (s : Q) : Analysis :=
  {| match_score := s;
     summary := "Candidate matches " ++ PyStr.of_nat (List.length matching) ++ " out of "
                ++ PyStr.of_nat (List.length req) ++ " required skills";
     strengths := map (fun k => "Proficient in " ++ k) matching;
     gaps := map (fun k => "Missing skill: " ++ k) missing;
     recommendations :=
       match missing with
       | [] => ["Strong match with required skills"]
       | _ => map (fun k => "Consider learning " ++ k) (firstn 3 missing)
       end;
     matching_skills := matching;
     missing_skills := missing |}.

(** [len(exp.get('period', '').split('-'))] *)
Definition period_years (e : pyval) : option nat :=
  p <- py_get e "period" (PStr "") ;;
  match p with
  | PStr s => Some (List.length (PyStr.split "-" s))
  | _ => None
  end.

Definition with_score_strength (a : Analysis) (q : Q) (note : string) : Analysis :=
  {| match_score := q; summary := summary a; strengths := strengths a ++ [note];
     gaps := gaps a; recommendations := recommendations a;
     matching_skills := matching_skills a; missing_skills := missing_skills a |}.

Definition with_score_gap (a : Analysis) (q : Q) (note : string) : Analysis :=
  {| match_score := q; summary := summary a; strengths := strengths a;
     gaps := gaps a ++ [note]; recommendations := recommendations a;
     matching_skills := matching_skills a; missing_skills := missing_skills a |}.

(** [if exp_requirements and candidate_data.get('experience'): ...]; the
    comparison [candidate_years >= min_years] raises [TypeError] unless
    [min_years] is an integer *)
Definition experience_adjust (cand exp_req : pyval) (a : Analysis) : option Analysis :=
  if truthy exp_req then
    cexp <- py_get cand "experience" PNone ;;
    if truthy cexp then
      min_years <- py_get exp_req "minimum_years" (PInt 0) ;;
      entries <- py_iter cexp ;;
      ys <- mapM period_years entries ;;
      let years := list_sum ys in
      match min_years with
      | PInt m =>
          if (m <=? Z.of_nat years)%Z then
            Some (with_score_strength a (py_min 100 (match_score a + 10))
                    ("Has " ++ PyStr.of_nat years ++ " years of relevant experience"))
          else
            Some (with_score_gap a (py_max 0 (match_score a - 10))
                    ("Requires " ++ PyStr.of_Z m ++ " years of experience"))
      | _ => None
      end
    else Some a
  else Some a.

(** the body of the [try] block; [None] when it raises *)
Definition score_body (cand jr0 : pyval) : option MatchScore :=
  let jr := if is_dict jr0 then jr0 else empty_requirements in
  required0 <- py_get jr "skills" (PList []) ;;
  let required := normalize_required required0 in
  cskills <- py_get cand "skills" (PList []) ;;
  req <- lower_set required ;;
  cs <- lower_set cskills ;;
  let matching := set_inter req cs in
  let missing := set_diff req cs in
  let s := skill_match_score req matching in
  let a := base_analysis req matching missing s in
  exp_req <- py_get jr "experience" (PDict []) ;;
  a' <- experience_adjust cand exp_req a ;;
  Some {| total_score := match_score a'; skill_match := s;
          experience_match := match_score a'; education_match := match_score a';
          ai_analysis := a' |}.

(** the [except Exception] result *)
Definition fallback_score : MatchScore :=
  {| total_score := 50; skill_match := 50; experience_match := 50; education_match := 50;
     ai_analysis :=
       {| match_score := 50;
          summary := "Basic skill matching analysis";
          strengths := ["Has some matching skills"];
          gaps := ["Could not perform detailed analysis"];
          recommendations := ["Review complete job requirements"];
          matching_skills := []; missing_skills := [] |} |}.

Definition calculate_match_score_sync (candidate_data job_requirements : pyval) : MatchScore :=
  match score_body candidate_data job_requirements with
  | Some r => r
  | None => fallback_score
  end.

Definition strs (l : list string) : pyval := PList (map PStr l).

Example score_end_to_end :
  let r := calculate_match_score_sync
             (PDict [("skills", strs ["Python"; "SQL"])])
             (PDict [("skills", strs ["python"; "sql"; "aws"])]) in
  Qeq_bool (skill_match r) (200 # 3) = true /\
  matching_skills (ai_analysis r) = ["python"; "sql"] /\
  missing_skills (ai_analysis r) = ["aws"] /\
  recommendations (ai_analysis r) = ["Consider learning aws"].
Proof. vm_compute. auto. Qed.

(** ** Records of [DataProcessor] (src/data_processor.py) *)

(** one entry of [candidate_data['experience']] *)
Record ExpEntry : Type := mkExpEntry {
  exp_title : option string;
  period : option string;
  exp_description : option string
}.

(** one entry of [candidate_data['education']] *)
Record EduEntry : Type := mkEduEntry {
  degree : option string;
  institution : option string;
  year : option string
}.

(** the candidate record produced by the resume extractor *)
Record Candidate : Type := mkCandidate {
  cand_skills : list string;
  cand_experience : list ExpEntry;
  cand_education : list EduEntry
}.

(** [job['requirements']['experience']] as built by [_parse_experience] *)
Record ExpReq : Type := mkExpReq {
  minimum_years : nat;
  exp_req_description : list string
}.

Record Requirements : Type := mkRequirements {
  req_skills : list string;
  req_experience : ExpReq;
  req_education : list string
}.

(** a job dict of the catalog; [company], [salary_range] and [work_type]
    are [None] when the CSV row carries Python's [None] there *)
Record Job : Type := mkJob {
  title : string;
  job_title : string;
  role : string;
  description : string;
  qualifications : string;
  company : option string;
  salary_range : option string;
  work_type : option string;
  requirements : Requirements;
  preliminary_score : option Q
}.

Definition opt_field (k : string) (v : option string) : list (string * pyval) :=
  match v with Some s => [(k, PStr s)] | None => [] end.

Definition exp_entry_to_py (e : ExpEntry) : pyval :=
  PDict (opt_field "title" (exp_title e) ++ opt_field "period" (period e)
         ++ opt_field "description" (exp_description e)).

Definition edu_entry_to_py (e : EduEntry) : pyval :=
  PDict (opt_field "degree" (degree e) ++ opt_field "institution" (institution e)
         ++ opt_field "year" (year e)).

(** [candidate_data] as the dict handed to the scorer *)
Definition cand_to_py (c : Candidate) : pyval :=
  PDict [("skills", strs (cand_skills c));
         ("experience", PList (map exp_entry_to_py (cand_experience c)));
         ("education", PList (map edu_entry_to_py (cand_education c)))].

(** [job['requirements']] as the dict handed to the scorer *)
Definition req_to_py (r : Requirements) : pyval :=
  PDict [("skills", strs (req_skills r));
         ("experience",
           PDict [("minimum_years", PInt (Z.of_nat (minimum_years (req_experience r))));
                  ("description", strs (exp_req_description (req_experience r)))]);
         ("education", strs (req_education r))].

Definition with_pscore (j : Job) (q : Q) : Job :=
  {| title := title j; job_title := job_title j; role := role j;
     description := description j; qualifications := qualifications j;
     company := company j; salary_range := salary_range j; work_type := work_type j;
     requirements := requirements j; preliminary_score := Some q |}.

(** ** [_load_jobs_from_csv] *)

(** a [csv.DictReader] row: header name to cell, [None] for a missing cell *)
Definition Row := list (string * option string).

(** [row.get(k, dflt)] *)
Definition row_get (row : Row) (k dflt : string) : option string :=
  match find (fun kv => String.eqb (fst kv) k) row with
  | Some (_, v) => v
  | None => Some dflt
  end.

(** [row.get(k, '').strip()]: [None.strip()] raises *)
Definition row_get_strip (row : Row) (k : string) : option string :=
  match row_get row k "" with Some s => Some (PyStr.strip s) | None => None end.

(** the double quote character, code 34 *)
Definition dquote : ascii := ascii_of_nat 34.

(** the characters of [strip] with the double quote, space and brackets *)
Definition skill_junk (c : ascii) : bool := Ascii.eqb c dquote || PyStr.in_chars " []" c.

(** the list comprehensions of the skills column: split on commas, strip,
    strip the double quote, space and brackets, strip again *)
Definition parse_skills (skills_text : string) : list string :=
  if String.eqb skills_text "" then []
  else map (fun t => PyStr.strip (PyStr.strip_by skill_junk (PyStr.strip t)))
           (PyStr.split "," skills_text).

Definition education_keywords : list string :=
  ["bachelor"; "master"; "phd"; "degree"; "diploma"; "certification"].

(** [_parse_qualifications] *)
Definition parse_qualifications (q : string) : list string :=
  map PyStr.strip
    (filter (fun line => existsb (fun k => PyStr.contains k (PyStr.lower line)) education_keywords)
            (PyStr.split (ascii_of_nat 10) q)).

(** the inner [for i, word in enumerate(words)] loop: the first digit word
    preceded by one of the three markers *)
Fixpoint scan_years (prev : option string) (words : list string) : option nat :=
  match words with
  | [] => None
  | w :: r =>
      match prev with
      | Some p =>
          if PyStr.isdigit w && existsb (String.eqb p) ["minimum"; "at least"; "more than"]
          then Some (PyStr.to_nat w) else scan_years (Some w) r
      | None => scan_years (Some w) r
      end
  end.

(** [_parse_experience]: a later matching line overrides [minimum_years] *)
Definition parse_experience (q : string) : ExpReq :=
  fold_left
    (fun e line =>
       let ll := PyStr.lower line in
       if PyStr.contains "experience" ll || PyStr.contains "years" ll then
         {| minimum_years :=
              match scan_years None (PyStr.split_ws ll) with
              | Some n => n
              | None => minimum_years e
              end;
            exp_req_description := exp_req_description e ++ [PyStr.strip line] |}
       else e)
    (PyStr.split (ascii_of_nat 10) q)
    {| minimum_years := 0; exp_req_description := [] |}.

(** the body of the per-row [try]; [None] when the row is skipped, by
    [continue] or by an exception *)
Definition parse_row (row : Row) : option Job :=
  match row with
  | [] => None
  | _ =>
      t <- row_get_strip row "Job Title" ;;
      r <- row_get_strip row "Role" ;;
      if String.eqb t "" then None
      else
        d <- row_get_strip row "Description" ;;
        q <- row_get_strip row "Qualifications" ;;
        st <- row_get_strip row "skills" ;;
        Some {| title := t; job_title := t; role := r; description := d; qualifications := q;
                company := row_get row "Company" "Not specified";
                salary_range := row_get row "Salary Range" "Not specified";
                work_type := row_get row "Work Type" "Not specified";
                requirements := {| req_skills := parse_skills st;
                                   req_experience := parse_experience q;
                                   req_education := parse_qualifications q |};
                preliminary_score := None |}
  end.

(** [for i, row in enumerate(reader)]: the reader yields [None] where it
    raises [csv.Error], which makes the whole load return [[]]; the row is
    fetched before the [i >= 100] test *)
Fixpoint load_rows (i : nat) (rows : list (option Row)) : option (list Job) :=
  match rows with
  | [] => Some []
  | None :: _ => None
  | Some row :: rest =>
      if (100 <=? i)%nat then Some []
      else
        match parse_row row with
        | Some j => js <- load_rows (S i) rest ;; Some (j :: js)
        | None => load_rows (S i) rest
        end
  end.

(** [_load_jobs_from_csv]: [None] for a file that cannot be opened *)
Definition load_jobs_from_csv (source : option (list (option Row))) : list Job :=
  match source with
  | None => []
  | Some rows => match load_rows 0 rows with Some js => js | None => [] end
  end.

(** ** [_pre_filter_jobs] *)

Definition tech_keywords : list string :=
  ["developer"; "engineer"; "programmer"; "software"; "web"; "full stack";
   "backend"; "frontend"; "data scientist"; "devops"; "qa"; "test";
   "analyst"; "architect"; "specialist"; "consultant"; "manager";
   "tech"; "it"; "information"; "system"; "application";
   "cloud"; "security"; "network"; "support"; "administrator"; "lead";
   "head"; "chief"; "director"; "coordinator"; "designer"; "marketing";
   "digital"; "content"; "social media"; "data"].

Definition tech_words : list string :=
  ["tech"; "it"; "software"; "data"; "digital"; "marketing"; "social"].

Definition any_in (ks : list string) (s : string) : bool :=
  existsb (fun k => PyStr.contains k s) ks.

(** [is_tech_job] *)
Definition is_tech_job (j : Job) : bool :=
  let tl := PyStr.lower (title j) in
  let rl := PyStr.lower (role j) in
  any_in tech_keywords tl || any_in tech_keywords rl || any_in tech_words tl || any_in tech_words rl.

(** [{skill.lower().strip() for skill in candidate_data.get('skills', [])}] *)
Definition candidate_skill_set (c : Candidate) : list string :=
  set_of (map (fun s => PyStr.strip (PyStr.lower s)) (cand_skills c)).

Definition bracket_junk (c : ascii) : bool := Ascii.eqb c dquote || PyStr.in_chars "[]" c.

(** [job_skills]: the requirements of a catalog job are a dict whose
    [skills] entry is a list *)
Definition job_skill_set (j : Job) : list string :=
  set_of (map (fun s => PyStr.strip_by bracket_junk (PyStr.strip (PyStr.lower s)))
              (req_skills (requirements j))).

Definition qltb (a b : Q) : bool := negb (Qle_bool b a).

(** [skill_score = len(common_skills) / len(job_skills)] *)
Definition skill_score (cs js : list string) : Q :=
  (inject_Z (Z.of_nat (List.length (set_inter cs js))) / inject_Z (Z.of_nat (List.length js)))%Q.

(** one iteration of the loop: [Some j'] when the job is appended, [j']
    carrying the [preliminary_score] written into it *)
Definition prefilter_step (cs : list string) (j : Job) : option Job :=
  if is_tech_job j then
    match job_skill_set j with
    | [] => Some (with_pscore j 50)
    | js =>
        let sc := skill_score cs js in
        if qltb 0 sc || (List.length js <=? 5)%nat then Some (with_pscore j (sc * 100)%Q)
        else None
    end
  else None.

(** The loop over the catalog.  [job['preliminary_score'] = ...] writes into
    the job dict that the cached catalog also holds, so the loop returns the
    catalog as it stands afterwards together with [filtered_jobs]; the jobs of
    [filtered_jobs] are those same dicts. *)
Fixpoint filter_loop (cs : list string) (jobs : list Job) : list Job * list Job :=
  match jobs with
  | [] => ([], [])
  | j :: r =>
      let (cat, filtered) := filter_loop cs r in
      match prefilter_step cs j with
      | Some j' => (j' :: cat, j' :: filtered)
      | None => (j :: cat, filtered)
      end
  end.

(** the sort key [x['preliminary_score']]; every job of [filtered_jobs] has one *)
Definition pscore (j : Job) : Q :=
  match preliminary_score j with Some q => q | None => 0%Q end.

(** insert after every job whose key is at least as large *)
Fixpoint insert_desc (x : Job) (l : list Job) : list Job :=
  match l with
  | [] => [x]
  | y :: r => if qltb (pscore y) (pscore x) then x :: l else y :: insert_desc x r
  end.

(** [list.sort(key=..., reverse=True)]: stable, descending *)
Definition sort_desc (l : list Job) : list Job :=
  fold_left (fun acc x => insert_desc x acc) l [].

(** [_pre_filter_jobs]: the catalog after the call, and [filtered_jobs[:50]] *)
Definition pre_filter_jobs (jobs : list Job) (cand : Candidate) : list Job * list Job :=
  let (cat, filtered) := filter_loop (candidate_skill_set cand) jobs in
  (cat, firstn 50 (sort_desc filtered)).

(** ** [match_candidate_with_jobs] *)

Record JobSummary : Type := mkJobSummary {
  js_title : string;
  js_company : option string;
  js_role : string;
  js_salary_range : option string;
  js_work_type : option string;
  js_requirements : Requirements
}.

Record MatchObj : Type := mkMatchObj {
  mo_job : JobSummary;
  mo_match_score : Q;
  mo_skill_match : Q;
  mo_experience_match : Q;
  mo_education_match : Q;
  mo_ai_analysis : Analysis
}.

Record Pagination : Type := mkPagination {
  total : Z;
  page : Z;
  per_page : Z;
  total_pages : Z
}.

Record PagedMatches : Type := mkPagedMatches {
  matches : list MatchObj;
  pagination : Pagination
}.

(** [l[start:stop]] *)
Definition py_slice {A} (l : list A) (start stop : Z) : list A :=
  let n := Z.of_nat (List.length l) in
  let norm i := if (i <? 0)%Z then Z.max 0 (i + n) else Z.min i n in
  let s := norm start in
  let e := norm stop in
  firstn (Z.to_nat (e - s)) (skipn (Z.to_nat s) l).

(** the [match_obj] built for one job of the page *)
Definition mk_match (cand : Candidate) (j : Job) : MatchObj :=
  let ms := calculate_match_score_sync (cand_to_py cand) (req_to_py (requirements j)) in
  {| mo_job := {| js_title := title j; js_company := company j; js_role := role j;
                  js_salary_range := salary_range j; js_work_type := work_type j;
                  js_requirements := requirements j |};
     mo_match_score := total_score ms;
     mo_skill_match := skill_match ms;
     mo_experience_match := experience_match ms;
     mo_education_match := education_match ms;
     mo_ai_analysis := ai_analysis ms |}.

(** [match_candidate_with_jobs] on the catalog [jobs] returned by
    [_get_cached_jobs]; it returns the catalog after the call and the result.
    The only exception its [try] can meet on these inputs is the
    [ZeroDivisionError] of [// per_page]; the scorer never raises, so the
    inner [except] is never taken.  [use_ai] is a parameter the body does not
    read, as in the source. *)
Definition match_candidate_with_jobs (jobs : list Job) (cand : Candidate)
    (pg pp : Z) (use_ai : bool) : list Job * PagedMatches :=
  let (cat, filtered_jobs) := pre_filter_jobs jobs cand in
  if Z.eqb pp 0 then
    (cat, {| matches := []; pagination := {| total := 0; page := pg; per_page := pp; total_pages := 0 |} |})
  else
    let total_jobs := Z.of_nat (List.length filtered_jobs) in
    let tp := ((total_jobs + pp - 1) / pp)%Z in
    let start_idx := ((pg - 1) * pp)%Z in
    let end_idx := (start_idx + pp)%Z in
    let page_jobs := py_slice filtered_jobs start_idx end_idx in
    (cat, {| matches := map (mk_match cand) page_jobs;
             pagination := {| total := total_jobs; page := pg; per_page := pp; total_pages := tp |} |}).

(** ** Quantities the statements below refer to *)

(** [0 <= q <= 100] *)
Definition in_0_100 (q : Q) : Prop := (0 <= q /\ q <= 100)%Q.

(** the experience estimate of [calculate_match_score_sync] on a candidate
    record: one more than the number of hyphens of each period, a missing
    period counting as the empty string *)
Definition candidate_years (c : Candidate) : nat :=
  list_sum (map (fun e => match period e with
                          | Some p => S (PyStr.count_char "-" p)
                          | None => 1
                          end) (cand_experience c)).

(** the jobs [_pre_filter_jobs] appends to [filtered_jobs], in catalog order *)
Definition kept_jobs (cs : list string) (jobs : list Job) : list Job :=
  flat_map (fun j => match prefilter_step cs j with Some j' => [j'] | None => [] end) jobs.

(** the order [filtered_jobs.sort(key=..., reverse=True)] establishes *)
Definition desc (a b : Job) : Prop := (pscore b <= pscore a)%Q.

(** the jobs whose [preliminary_score] equals [q] *)
Definition score_class (q : Q) (j : Job) : bool := Qeq_bool (pscore j) q.

(** the rows [_load_jobs_from_csv] turns into jobs *)
Definition parsed_rows (rows : list Row) : list Job :=
  flat_map (fun r => match parse_row r with Some j => [j] | None => [] end) rows.

(** the job of the C2 and C8 examples: a loaded job without any parsed
    minimum of years and without skills *)
Definition job_no_minimum : Job :=
  {| title := "Software Engineer"; job_title := "Software Engineer"; role := "";
     description := ""; qualifications := ""; company := Some "Not specified";
     salary_range := Some "Not specified"; work_type := Some "Not specified";
     requirements := {| req_skills := [];
                        req_experience := {| minimum_years := 0; exp_req_description := [] |};
                        req_education := [] |};
     preliminary_score := None |}.

(** a candidate with one experience entry *)
Definition cand_one_entry : Candidate :=
  {| cand_skills := []; cand_experience := [mkExpEntry None (Some "2019-2021") None];
     cand_education := [] |}.

(** a row with the given [Job Title] cell *)
Definition titled_row (t : string) : Row :=
  [("Job Title", Some t); ("Role", Some "Developer"); ("skills", Some "python, sql")].

(** a blank-title row followed by 100 titled rows *)
Definition blank_then_100 : list Row := titled_row " " :: repeat (titled_row "Data Analyst") 100.

(** a domain-relevant job asking for six skills *)
Definition job_six_skills : Job :=
  {| title := "Data Engineer"; job_title := "Data Engineer"; role := "";
     description := ""; qualifications := ""; company := None;
     salary_range := None; work_type := None;
     requirements := {| req_skills := ["Java"; "Go"; "Rust"; "Scala"; "Kotlin"; "Swift"];
                        req_experience := {| minimum_years := 0; exp_req_description := [] |};
                        req_education := [] |};
     preliminary_score := None |}.

(** a catalog of 25 domain-relevant jobs that all pass the pre-filter *)
Definition catalog_25 : list Job := repeat job_no_minimum 25.

(** ** The profile helpers of [JobMatcher] (src/ai_processor.py) *)

(** [calculate_years_of_experience]: an entry with a [period] adds the
    number of pieces of [period.split('-')], an entry without one adds
    nothing *)
Definition calculate_years_of_experience (experience : list ExpEntry) : nat :=
  fold_left (fun total_years e =>
               match period e with
               | Some p => total_years + List.length (PyStr.split "-" p)
               | None => total_years
               end) experience 0.

(** [determine_experience_level] *)
Definition determine_experience_level (years : nat) : string :=
  if Nat.ltb years 2 then "Entry Level"
  else if Nat.ltb years 5 then "Mid Level"
  else if Nat.ltb years 8 then "Senior"
  else if Nat.ltb years 12 then "Lead"
  else "Principal".

(** the [levels] dict of [get_highest_education_level], in insertion order *)
Definition education_levels : list (string * nat) :=
  [("phd", 5); ("master", 4); ("bachelor", 3); ("associate", 2); ("high school", 1)].

(** [edu.get('degree', '').lower()] *)
Definition degree_lower (edu : EduEntry) : string :=
  PyStr.lower (match degree edu with Some d => d | None => "" end).

(** the inner loop over [levels.items()] for one degree *)
Definition raise_level (d : string) (highest_level : nat) : nat :=
  fold_left (fun h lv => if PyStr.contains (fst lv) d && Nat.ltb h (snd lv) then snd lv else h)
            education_levels highest_level.

(** [get_highest_education_level] *)
Definition get_highest_education_level (education : list EduEntry) : nat :=
  fold_left (fun highest_level edu => raise_level (degree_lower edu) highest_level) education 0.

(** one entry of [self.global_job_categories] *)
Record JobCategory : Type := mkJobCategory {
  cat_name : string;
  cat_skills : list string;
  cat_departments : list string;
  cat_experience_levels : list string;
  cat_education : list string
}.

Definition global_job_categories : list JobCategory :=
  [ {| cat_name := "Software Development";
       cat_skills := ["programming"; "software development"; "coding"; "algorithms"; "data structures";
                      "version control"; "testing"; "debugging"; "problem solving"];
       cat_departments := ["Engineering"; "Technology"; "IT"; "Research & Development"];
       cat_experience_levels := ["Entry Level"; "Mid Level"; "Senior"; "Lead"; "Architect"];
       cat_education := ["Computer Science"; "Software Engineering"; "Information Technology"] |};
    {| cat_name := "Data Science";
       cat_skills := ["data analysis"; "machine learning"; "statistics"; "python"; "r"; "sql";
                      "data visualization"; "big data"; "predictive modeling"];
       cat_departments := ["Data Science"; "Analytics"; "Research"; "Technology"];
       cat_experience_levels := ["Entry Level"; "Mid Level"; "Senior"; "Lead"; "Principal"];
       cat_education := ["Data Science"; "Computer Science"; "Statistics"; "Mathematics"] |};
    {| cat_name := "Business Analysis";
       cat_skills := ["business analysis"; "requirements gathering"; "process improvement";
                      "project management"; "data analysis"; "communication"; "documentation";
                      "stakeholder management"];
       cat_departments := ["Business"; "Operations"; "Strategy"; "Consulting"];
       cat_experience_levels := ["Entry Level"; "Mid Level"; "Senior"; "Lead"; "Manager"];
       cat_education := ["Business Administration"; "Management"; "Economics"; "Finance"] |};
    {| cat_name := "Marketing";
       cat_skills := ["digital marketing"; "social media"; "content creation"; "analytics"; "seo";
                      "campaign management"; "brand management"; "market research"];
       cat_departments := ["Marketing"; "Digital"; "Communications"; "Brand"];
       cat_experience_levels := ["Entry Level"; "Mid Level"; "Senior"; "Lead"; "Director"];
       cat_education := ["Marketing"; "Communications"; "Business"; "Media Studies"] |} ].

(** one dict of the list [generate_global_matches] returns *)
Record GlobalMatch : Type := mkGlobalMatch {
  gm_category : string;
  gm_match_score : Q;
  gm_departments : list string;
  gm_experience_level : string;
  gm_required_skills : list string;
  gm_ai_analysis : pyval
}.

(** [_batch_analyze_categories]: [reply] is [json.loads(response.text)], or
    [None] when the model call raises or its text is not JSON, in which
    case the method returns [{}] *)
Definition batch_analyze_categories (reply : option pyval) : pyval :=
  match reply with Some v => v | None => PDict [] end.

(** the nearest integer, ties to the even one *)
Definition round_half_even (q : Q) : Z :=
  let n := Qnum q in
  let d := Zpos (Qden q) in
  let f := (n / d)%Z in
  match Z.compare (2 * (n - f * d)) d with
  | Lt => f
  | Gt => (f + 1)%Z
  | Eq => if Z.even f then f else (f + 1)%Z
  end.

(** [round(x, 2)] on the exact value of [x] *)
Definition py_round2 (q : Q) : Q := (inject_Z (round_half_even (q * 100)) / 100)%Q.

(** the default of [all_categories_analysis.get(category, {...})] *)
Definition default_category_analysis (category level : string)
    (matching missing required : list string) : pyval :=
  PDict [("summary", PStr ("Quick analysis for " ++ category ++ " roles"));
         ("strengths", strs ["Experience level: " ++ level;
                             "Matching skills: " ++ PyStr.of_nat (List.length matching) ++ " out of "
                             ++ PyStr.of_nat (List.length required)]);
         ("gaps", PList []);
         ("recommendations", strs ["Consider gaining more experience in this field";
                                   "Look for opportunities to develop required skills"]);
         ("matching_skills", strs matching);
         ("missing_skills", strs missing)].

(** the [match_score] expression of one category, before [round] *)
Definition category_score (cset : list string) (level : string) (education_level : nat)
    (c : JobCategory) : Q :=
  let required := set_of (map PyStr.lower (cat_skills c)) in
  let matching := set_inter cset required in
  let sm := if Nat.eqb (List.length required) 0 then (1 # 2)%Q
            else (inject_Z (Z.of_nat (List.length matching))
                  / inject_Z (Z.of_nat (List.length required)))%Q in
  let ef := if mem level (cat_experience_levels c) then 1%Q else (1 # 2)%Q in
  let df := if existsb (fun edu => PyStr.contains (PyStr.lower edu)
                                     (PyStr.lower (PyStr.of_nat education_level)))
                       (cat_education c)
            then 1%Q else (1 # 2)%Q in
  ((sm * (1 # 2) + ef * (3 # 10) + df * (2 # 10)) * 100)%Q.

(** one iteration of the loop over [global_job_categories]; [.get] raises
    unless the batch analysis is a dict *)
Definition category_match (cset : list string) (level : string) (education_level : nat)
    (analysis : pyval) (c : JobCategory) : option GlobalMatch :=
  let required := set_of (map PyStr.lower (cat_skills c)) in
  let matching := set_inter cset required in
  let missing := set_diff required cset in
  ai <- py_get analysis (cat_name c)
          (default_category_analysis (cat_name c) level matching missing required) ;;
  Some {| gm_category := cat_name c;
          gm_match_score := py_round2 (category_score cset level education_level c);
          gm_departments := cat_departments c;
          gm_experience_level := level;
          gm_required_skills := cat_skills c;
          gm_ai_analysis := ai |}.

(** [list.sort(key=key, reverse=True)]: stable, descending *)
Fixpoint insert_desc_by {A} (key : A -> Q) (x : A) (l : list A) : list A :=
  match l with
  | [] => [x]
  | y :: r => if qltb (key y) (key x) then x :: l else y :: insert_desc_by key x r
  end.

Definition sort_desc_by {A} (key : A -> Q) (l : list A) : list A :=
  fold_left (fun acc x => insert_desc_by key x acc) l [].

(** [generate_global_matches]; [reply] is the answer of the model to the
    batch prompt, [None] when no JSON came back.  An exception escapes as
    [None]. *)
Definition generate_global_matches (candidate_data : Candidate) (reply : option pyval)
    : option (list GlobalMatch) :=
  let candidate_skills := map PyStr.lower (cand_skills candidate_data) in
  let years_of_experience := calculate_years_of_experience (cand_experience candidate_data) in
  let experience_level := determine_experience_level years_of_experience in
  let education_level := get_highest_education_level (cand_education candidate_data) in
  let candidate_skill_set := set_of candidate_skills in
  let all_categories_analysis := batch_analyze_categories reply in
  ms <- mapM (category_match candidate_skill_set experience_level education_level
                all_categories_analysis) global_job_categories ;;
  Some (firstn 5 (sort_desc_by gm_match_score ms)).

(** ** [ResumeProcessor.extract_experience] and [extract_education] *)

Definition newline : ascii := ascii_of_nat 10.

(** [range(1990, 2025)] *)
Definition resume_years : list nat := seq 1990 35.

(** [any(year in line for year in [str(y) for y in range(1990, 2025)])] *)
Definition has_year (line : string) : bool :=
  existsb (fun y => PyStr.contains (PyStr.of_nat y) line) resume_years.

Definition title_words : list string :=
  ["engineer"; "developer"; "manager"; "analyst"; "consultant"].

(** [current_exp] is an [ExpEntry]; [{}] is the entry with no field *)
Definition no_exp : ExpEntry := mkExpEntry None None None.

Definition exp_empty (e : ExpEntry) : bool :=
  match e with mkExpEntry None None None => true | _ => false end.

(** one iteration of the loop over the lines *)
Definition experience_step (st : list ExpEntry * ExpEntry) (line : string)
    : list ExpEntry * ExpEntry :=
  let (experience, cur) := st in
  if has_year line then
    ((if exp_empty cur then experience else (experience ++ [cur])%list), mkExpEntry None (Some line) None)
  else if any_in title_words (PyStr.lower line) then
    (experience, match exp_title cur with
                 | None => mkExpEntry (Some line) (period cur) (exp_description cur)
                 | Some _ => cur
                 end)
  else if exp_empty cur then (experience, cur)
  else (experience, mkExpEntry (exp_title cur) (period cur)
                      (Some match exp_description cur with
                            | None => line
                            | Some d => d ++ " " ++ line
                            end)).

(** [extract_experience] *)
Definition extract_experience (text : string) : list ExpEntry :=
  let (experience, cur) := fold_left experience_step (PyStr.split newline text) ([], no_exp) in
  if exp_empty cur then experience else (experience ++ [cur])%list.

(** a dict of the list [extract_education] returns *)
Record EduFound : Type := mkEduFound {
  found_degree : string;
  found_year : option nat;
  found_institution : option string
}.

Definition edu_words : list string :=
  ["bachelor"; "master"; "phd"; "degree"; "university"; "college"].

(** [next((y for y in range(1990, 2025) if str(y) in line), None)] *)
Definition first_year (line : string) : option nat :=
  find (fun y => PyStr.contains (PyStr.of_nat y) line) resume_years.

(** one iteration of the loop over the lines; [current_edu = {}] is [None] *)
Definition education_step (st : list EduFound * option EduFound) (line : string)
    : list EduFound * option EduFound :=
  let (education, cur) := st in
  if any_in edu_words (PyStr.lower line) then
    ((match cur with Some e => (education ++ [e])%list | None => education end),
     Some (mkEduFound line (first_year line) None))
  else match cur with
       | Some e =>
           match found_institution e with
           | None => (education, Some (mkEduFound (found_degree e) (found_year e) (Some line)))
           | Some _ => (education, cur)
           end
       | None => (education, None)
       end.

(** [extract_education] *)
Definition extract_education (text : string) : list EduFound :=
  let (education, cur) := fold_left education_step (PyStr.split newline text) ([], None) in
  match cur with Some e => (education ++ [e])%list | None => education end.

(** ** [DataProcessor._get_cached_jobs], [get_job_categories] and
    [get_skills_distribution] (src/data_processor.py) *)






(** [sorted()] on strings: code-point order, stable *)
Fixpoint insert_str (x : string) (l : list string) : list string :=
  match l with
  | [] => [x]
  | y :: r => if String.ltb x y then x :: l else y :: insert_str x r
  end.

Definition sorted_strings (l : list string) : list string :=
  fold_left (fun acc x => insert_str x acc) l [].

(** [get_job_categories] on the catalog [_get_cached_jobs] returns *)
Definition get_job_categories (jobs : list Job) : list string :=
  sorted_strings (set_of (map role jobs)).

(** [skills_count[skill] = skills_count.get(skill, 0) + 1] on a dict kept
    in insertion order *)
Fixpoint count_skill (skill : string) (d : list (string * nat)) : list (string * nat) :=
  match d with
  | [] => [(skill, 1)]
  | (k, n) :: r => if String.eqb k skill then (k, S n) :: r else (k, n) :: count_skill skill r
  end.

Definition skills_count (jobs : list Job) : list (string * nat) :=
  fold_left (fun d j => fold_left (fun d s => count_skill s d) (req_skills (requirements j)) d)
            jobs [].

(** [get_skills_distribution] on the catalog [_get_cached_jobs] returns:
    the items sorted by count, descending and stably *)
Definition get_skills_distribution (jobs : list Job) : list (string * nat) :=
  sort_desc_by (fun kv => inject_Z (Z.of_nat (snd kv))) (skills_count jobs).

(** ** [allowed_file] (src/app.py) *)

Definition ALLOWED_EXTENSIONS : list string := ["pdf"; "docx"].

(** [filename.rsplit('.', 1)[1]] of a name with a dot is the text after its
    last dot, the last piece of [filename.split('.')] *)
Definition allowed_file (filename : string) : bool :=
  PyStr.contains "." filename &&
  mem (PyStr.lower (last (PyStr.split "." filename) "")) ALLOWED_EXTENSIONS.

(** ** Quantities the further statements refer to *)

(** the [period] values of a list of experience entries *)
Definition entry_periods (es : list ExpEntry) : list string :=
  flat_map (fun e => match period e with Some p => [p] | None => [] end) es.

(** the position of a level in the order [determine_experience_level]
    assigns them *)
Definition level_rank (s : string) : nat :=
  if String.eqb s "Entry Level" then 0
  else if String.eqb s "Mid Level" then 1
  else if String.eqb s "Senior" then 2
  else if String.eqb s "Lead" then 3
  else 4.

(** all skill strings of the catalog, with repetitions *)
Definition all_skills (jobs : list Job) : list string :=
  flat_map (fun j => req_skills (requirements j)) jobs.


(** the list [extract_experience] returns from the state its loop leaves *)
Definition exp_out (st : list ExpEntry * ExpEntry) : list ExpEntry :=
  let (experience, cur) := st in if exp_empty cur then experience else (experience ++ [cur])%list.

(** the loop state of [extract_experience] in which every entry already
    appended after the first one carries a period *)
Definition exp_tail_inv (st : list ExpEntry * ExpEntry) : Prop :=
  (fst st = [] /\ period (snd st) = None) \/
  (period (snd st) <> None /\ Forall (fun e => period e <> None) (tl (fst st))).

(** the list [extract_education] returns from the state its loop leaves *)
Definition edu_out (st : list EduFound * option EduFound) : list EduFound :=
  let (education, cur) := st in
  match cur with Some e => (education ++ [e])%list | None => education end.

(** ** Lemmas on the scorer *)

Ltac inv_binds H :=
  repeat match type of H with
         | context [match ?x with _ => _ end] =>
             let E := fresh "E" in destruct x eqn:E; try discriminate H
         end.

Lemma py_min_bounds (q : Q) : in_0_100 q -> in_0_100 (py_min 100 (q + 10)).
Proof.
  unfold in_0_100, py_min. intros [H0 H1].
  destruct (Qle_bool 100 (q + 10)) eqn:E.
  - split; lra.
  - apply not_true_iff_false in E. rewrite Qle_bool_iff in E.
    apply Qnot_le_lt in E. split; lra.
Qed.

Lemma py_max_bounds (q : Q) : in_0_100 q -> in_0_100 (py_max 0 (q - 10)).
Proof.
  unfold in_0_100, py_max. intros [H0 H1].
  destruct (Qle_bool (q - 10) 0) eqn:E.
  - split; lra.
  - apply not_true_iff_false in E. rewrite Qle_bool_iff in E.
    apply Qnot_le_lt in E. split; lra.
Qed.

Lemma ratio_bounds (m r : nat) :
  (m <= r)%nat -> (0 < r)%nat ->
  in_0_100 (inject_Z (Z.of_nat m) / inject_Z (Z.of_nat r) * 100)%Q.
Proof.
  intros Hmr Hr.
  assert (Hr' : (0 < inject_Z (Z.of_nat r))%Q)
    by (change (inject_Z 0 < inject_Z (Z.of_nat r))%Q; rewrite <- Zlt_Qlt; lia).
  assert (Hm : (inject_Z (Z.of_nat m) <= inject_Z (Z.of_nat r))%Q) by (rewrite <- Zle_Qle; lia).
  assert (Hm0 : (0 <= inject_Z (Z.of_nat m))%Q)
    by (change (inject_Z 0 <= inject_Z (Z.of_nat m))%Q; rewrite <- Zle_Qle; lia).
  assert (H0 : (0 <= inject_Z (Z.of_nat m) / inject_Z (Z.of_nat r))%Q).
  { apply Qle_shift_div_l; [exact Hr' | lra]. }
  assert (H1 : (inject_Z (Z.of_nat m) / inject_Z (Z.of_nat r) <= 1)%Q).
  { apply Qle_shift_div_r; [exact Hr' | lra]. }
  unfold in_0_100. split; lra.
Qed.

Lemma skill_match_score_bounds (req cs : list string) :
  in_0_100 (skill_match_score req (set_inter req cs)).
Proof.
  unfold skill_match_score.
  destruct (Nat.eqb (List.length req) 0) eqn:E.
  - unfold in_0_100. split; lra.
  - apply Nat.eqb_neq in E. apply ratio_bounds.
    + apply filter_length_le.
    + lia.
Qed.

(** the three outcomes of the experience adjustment *)
Lemma experience_adjust_cases (cand e : pyval) (a a' : Analysis) :
  experience_adjust cand e a = Some a' ->
  match_score a' = match_score a \/
  match_score a' = py_min 100 (match_score a + 10) \/
  match_score a' = py_max 0 (match_score a - 10).
Proof.
  unfold experience_adjust, obind. intro H.
  inv_binds H; injection H as <-; simpl; auto.
Qed.

Lemma experience_adjust_bounds (cand e : pyval) (a a' : Analysis) :
  experience_adjust cand e a = Some a' ->
  in_0_100 (match_score a) -> in_0_100 (match_score a').
Proof.
  intros H Hb.
  destruct (experience_adjust_cases _ _ _ _ H) as [-> | [-> | ->]].
  - exact Hb.
  - now apply py_min_bounds.
  - now apply py_max_bounds.
Qed.

(** what a successful run of the [try] body computes *)
Lemma score_body_shape (cand jr : pyval) (r : MatchScore) :
  score_body cand jr = Some r ->
  exists v cv req cs a,
    py_get (if is_dict jr then jr else empty_requirements) "skills" (PList []) = Some v /\
    lower_set (normalize_required v) = Some req /\
    py_get cand "skills" (PList []) = Some cv /\
    lower_set cv = Some cs /\
    skill_match r = skill_match_score req (set_inter req cs) /\
    experience_adjust cand
      (match py_get (if is_dict jr then jr else empty_requirements) "experience" (PDict []) with
       | Some e => e | None => PNone end)
      (base_analysis req (set_inter req cs) (set_diff req cs)
         (skill_match_score req (set_inter req cs))) = Some a /\
    r = {| total_score := match_score a; skill_match := skill_match r;
           experience_match := match_score a; education_match := match_score a;
           ai_analysis := a |}.
Proof.
  unfold score_body, obind. intro H.
  inv_binds H. injection H as <-.
  do 5 eexists. repeat split; eauto.
Qed.

Lemma mapM_py_lower_strs (l : list string) :
  mapM py_lower (map PStr l) = Some (map PyStr.lower l).
Proof. induction l as [|s l IH]; simpl; [reflexivity | rewrite IH; reflexivity]. Qed.

Lemma lower_set_strs (l : list string) :
  lower_set (strs l) = Some (set_of (map PyStr.lower l)).
Proof. unfold lower_set, strs. simpl. rewrite mapM_py_lower_strs. reflexivity. Qed.

(** ** C1: the four scores lie in [0, 100] *)

(** C1: for every candidate value and every job-requirements value, the
    [total_score], [skill_match], [experience_match] and [education_match] of
    the result of [calculate_match_score_sync], fallback included, lie in
    the closed interval [0, 100]. *)
Theorem C1_scores_in_0_100 (cand jr : pyval) :
  let r := calculate_match_score_sync cand jr in
  in_0_100 (total_score r) /\ in_0_100 (skill_match r) /\
  in_0_100 (experience_match r) /\ in_0_100 (education_match r).
Proof.
  unfold calculate_match_score_sync.
  destruct (score_body cand jr) as [m|] eqn:E.
  - destruct (score_body_shape _ _ _ E) as (v & cv & req & cs & a & _ & _ & _ & _ & Hs & Ha & Hr).
    assert (Hsk : in_0_100 (skill_match m)) by (rewrite Hs; apply skill_match_score_bounds).
    assert (Hms : in_0_100 (match_score a)).
    { eapply experience_adjust_bounds; [exact Ha | simpl; rewrite <- Hs; exact Hsk]. }
    rewrite Hr. simpl. auto.
  - simpl. unfold in_0_100. repeat split; lra.
Qed.

(** ** C3: the three reported sub-scores are the adjusted skill score *)

(** C3: on the non-error path the scorer returns the body's result, whose
    [total_score], [experience_match] and [education_match] are one value,
    the skill score after the experience adjustment (unchanged, [+10] capped
    at 100 or [-10] floored at 0), while [skill_match] is the score before
    it: [len(matching)/len(required) * 100] for a non-empty required set,
    else 50, over the lower-cased required and candidate skill sets. *)
Theorem C3_subscores_equal_adjusted (cand jr : pyval) (r : MatchScore) :
  score_body cand jr = Some r ->
  calculate_match_score_sync cand jr = r /\
  total_score r = experience_match r /\ experience_match r = education_match r /\
  exists v req cv cs,
    py_get (if is_dict jr then jr else empty_requirements) "skills" (PList []) = Some v /\
    lower_set (normalize_required v) = Some req /\
    py_get cand "skills" (PList []) = Some cv /\ lower_set cv = Some cs /\
    (req = [] -> skill_match r == 50)%Q /\
    (req <> [] ->
       skill_match r == inject_Z (Z.of_nat (List.length (set_inter req cs)))
                        / inject_Z (Z.of_nat (List.length req)) * 100)%Q /\
    (total_score r = skill_match r \/
     total_score r = py_min 100 (skill_match r + 10) \/
     total_score r = py_max 0 (skill_match r - 10)).
Proof.
  intro E.
  destruct (score_body_shape _ _ _ E) as (v & cv & req & cs & a & Hv & Hreq & Hcv & Hcs & Hs & Ha & Hr).
  split; [unfold calculate_match_score_sync; rewrite E; reflexivity|].
  rewrite Hr. simpl. split; [reflexivity|]. split; [reflexivity|].
  exists v, req, cv, cs. repeat split; auto.
  - intros ->. rewrite Hs. unfold skill_match_score. simpl. reflexivity.
  - intro Hne. rewrite Hs. unfold skill_match_score.
    destruct (Nat.eqb (List.length req) 0) eqn:L.
    + apply Nat.eqb_eq in L. destruct req; [congruence | discriminate].
    + reflexivity.
  - apply experience_adjust_cases in Ha. simpl in Ha. rewrite <- Hs in Ha. exact Ha.
Qed.

(** ** C9: the scorer never raises *)

(** C9: [calculate_match_score_sync] is total; when its body raises it
    returns the fixed fallback (all four scores 50 and generic analysis
    text), otherwise the body's result; a non-dict [job_requirements] is
    scored as the empty-requirements shape, which for a candidate record
    gives the neutral [total_score = skill_match = 50]. *)
Theorem C9_never_raises_fallback (cand jr : pyval) :
  (score_body cand jr = None -> calculate_match_score_sync cand jr = fallback_score) /\
  (forall r, score_body cand jr = Some r -> calculate_match_score_sync cand jr = r) /\
  (is_dict jr = false ->
     calculate_match_score_sync cand jr = calculate_match_score_sync cand empty_requirements) /\
  (forall c : Candidate, is_dict jr = false ->
     (total_score (calculate_match_score_sync (cand_to_py c) jr) == 50)%Q /\
     (skill_match (calculate_match_score_sync (cand_to_py c) jr) == 50)%Q) /\
  total_score fallback_score = 50%Q /\ skill_match fallback_score = 50%Q /\
  experience_match fallback_score = 50%Q /\ education_match fallback_score = 50%Q /\
  summary (ai_analysis fallback_score) = "Basic skill matching analysis".
Proof.
  split; [unfold calculate_match_score_sync; intros ->; reflexivity|].
  split; [unfold calculate_match_score_sync; intros r ->; reflexivity|].
  split.
  { intro H. unfold calculate_match_score_sync, score_body. rewrite H. reflexivity. }
  split; [|repeat split].
  intros c H. unfold calculate_match_score_sync, score_body. rewrite H.
  unfold cand_to_py. cbn -[lower_set strs]. rewrite lower_set_strs. simpl. split; reflexivity.
Qed.

(** ** C2: the experience adjustment *)

Lemma split_length (c : ascii) (s : string) :
  List.length (PyStr.split c s) = S (PyStr.count_char c s).
Proof.
  induction s as [|a r IH]; simpl; [reflexivity|].
  destruct (Ascii.eqb a c); simpl.
  - rewrite IH. reflexivity.
  - destruct (PyStr.split c r) as [|h t]; simpl in *; [discriminate | exact IH].
Qed.

Lemma period_years_entry (e : ExpEntry) :
  period_years (exp_entry_to_py e) =
  Some (match period e with Some p => S (PyStr.count_char "-" p) | None => 1 end).
Proof.
  destruct e as [t p d]; destruct t, p, d; simpl;
    unfold period_years; simpl; rewrite ?split_length; reflexivity.
Qed.

Lemma mapM_period_years (es : list ExpEntry) :
  mapM period_years (map exp_entry_to_py es) =
  Some (map (fun e => match period e with Some p => S (PyStr.count_char "-" p) | None => 1 end) es).
Proof.
  induction es as [|e es IH]; simpl; [reflexivity|].
  rewrite period_years_entry. simpl. rewrite IH. reflexivity.
Qed.

(** C2 (counterexample): a loaded job with [minimum_years = 0] and no
    skills, scored against a candidate with one experience entry: the score
    is adjusted, [total_score] is 60 and differs from [skill_match]. *)
Lemma C2_counterexample :
  let r := calculate_match_score_sync (cand_to_py cand_one_entry)
             (req_to_py (requirements job_no_minimum)) in
  minimum_years (req_experience (requirements job_no_minimum)) = 0 /\
  (total_score r == 60)%Q /\ ~ (total_score r == skill_match r)%Q.
Proof.
  vm_compute. split; [reflexivity|]. split; [reflexivity|]. intro H. discriminate H.
Qed.

(** C2 (amended): on a candidate record and requirements [{'skills': sk,
    'experience': ev}], no adjustment is made when [ev] is falsy or the
    candidate has no experience entry; when [ev] is a non-empty dict whose
    [minimum_years] (default 0) is the integer [m] and the candidate has an
    entry, the score becomes [min(100, s + 10)] if the estimated years (one
    more than the hyphen count of each period, summed) reach [m], and
    [max(0, s - 10)] otherwise, whatever the sign of [m]. *)
Theorem C2_experience_adjustment (c : Candidate) (sk : list string) (ev : pyval) :
  let r := calculate_match_score_sync (cand_to_py c)
             (PDict [("skills", strs sk); ("experience", ev)]) in
  ((truthy ev = false \/ cand_experience c = []) -> total_score r = skill_match r) /\
  (forall ekvs m, ev = PDict ekvs -> ekvs <> [] ->
     dict_get ekvs "minimum_years" (PInt 0) = PInt m ->
     cand_experience c <> [] ->
     total_score r =
       if (m <=? Z.of_nat (candidate_years c))%Z then py_min 100 (skill_match r + 10)
       else py_max 0 (skill_match r - 10)).
Proof.
  unfold calculate_match_score_sync, score_body. cbn -[lower_set strs experience_adjust].
  rewrite !lower_set_strs. cbn -[experience_adjust]. rewrite ?mapM_py_lower_strs. cbn -[experience_adjust].
  split.
  - intros [Hf | He]; unfold experience_adjust.
    + rewrite Hf. reflexivity.
    + destruct (truthy ev); [|reflexivity]. unfold cand_to_py. rewrite He. simpl. reflexivity.
  - intros ekvs m -> Hne Hm He. unfold experience_adjust.
    assert (Ht : truthy (PDict ekvs) = true).
    { destruct ekvs; [congruence | reflexivity]. }
    rewrite Ht. unfold cand_to_py. simpl.
    destruct (cand_experience c) as [|e es] eqn:Ec; [congruence|]. simpl.
    rewrite Hm. simpl. rewrite period_years_entry. simpl. rewrite mapM_period_years. simpl.
    unfold candidate_years. rewrite Ec. simpl.
    destruct (m <=? _)%Z; reflexivity.
Qed.

(** ** Lemmas on the pre-filter *)

Lemma qltb_iff (a b : Q) : qltb a b = true <-> (a < b)%Q.
Proof.
  unfold qltb. rewrite negb_true_iff, <- not_true_iff_false, Qle_bool_iff.
  split; [apply Qnot_le_lt | apply Qlt_not_le].
Qed.

Lemma filter_loop_kept (cs : list string) (jobs : list Job) :
  snd (filter_loop cs jobs) = kept_jobs cs jobs.
Proof.
  induction jobs as [|j r IH]; simpl; [reflexivity|].
  destruct (filter_loop cs r) as [cat f]. simpl in IH.
  destruct (prefilter_step cs j); simpl; rewrite IH; reflexivity.
Qed.

Lemma prefilter_step_pscore (cs : list string) (j j' : Job) :
  prefilter_step cs j = Some j' -> j' = with_pscore j (pscore j').
Proof.
  unfold prefilter_step. intro H.
  destruct (is_tech_job j); [|discriminate].
  destruct (job_skill_set j) as [|x xs].
  - injection H as <-. reflexivity.
  - destruct (_ || _); [injection H as <-; reflexivity | discriminate].
Qed.

Lemma filter_loop_catalog (cs : list string) (jobs : list Job) :
  Forall2 (fun j j' => (prefilter_step cs j = None /\ j' = j) \/
                       (prefilter_step cs j = Some j' /\ j' = with_pscore j (pscore j')))
          jobs (fst (filter_loop cs jobs)) /\
  incl (snd (filter_loop cs jobs)) (fst (filter_loop cs jobs)).
Proof.
  induction jobs as [|j r [IH1 IH2]]; simpl.
  - split; [constructor | intros x Hx; exact Hx].
  - destruct (filter_loop cs r) as [cat f]. simpl in IH1, IH2.
    destruct (prefilter_step cs j) as [j'|] eqn:E; simpl.
    + split.
      * constructor; [right; split; [exact E | exact (prefilter_step_pscore cs j j' E)] | exact IH1].
      * apply incl_cons; [left; reflexivity | apply incl_tl; exact IH2].
    + split.
      * constructor; [left; split; [exact E | reflexivity] | exact IH1].
      * apply incl_tl; exact IH2.
Qed.

(** *** the stable descending insertion sort *)

Lemma desc_trans : forall a b c, desc a b -> desc b c -> desc a c.
Proof. unfold desc. intros a b c H1 H2. eapply Qle_trans; eauto. Qed.

Lemma insert_desc_perm (x : Job) (l : list Job) : Permutation (insert_desc x l) (x :: l).
Proof.
  induction l as [|y r IH]; simpl; [reflexivity|].
  destruct (qltb (pscore y) (pscore x)); [reflexivity|].
  eapply perm_trans; [apply perm_skip; exact IH | apply perm_swap].
Qed.

Lemma sort_fold_perm (l acc : list Job) :
  Permutation (fold_left (fun acc x => insert_desc x acc) l acc) (acc ++ l).
Proof.
  revert acc. induction l as [|x l IH]; intro acc; simpl.
  - rewrite app_nil_r. reflexivity.
  - eapply perm_trans; [apply IH|].
    eapply perm_trans; [apply Permutation_app_tail, insert_desc_perm|].
    simpl. apply Permutation_middle.
Qed.

Lemma insert_desc_hd (x y : Job) (l : list Job) :
  HdRel desc y l -> desc y x -> HdRel desc y (insert_desc x l).
Proof.
  intros H Hyx. destruct l as [|z r]; simpl.
  - constructor. exact Hyx.
  - destruct (qltb (pscore z) (pscore x)); constructor; [exact Hyx | inversion H; assumption].
Qed.

Lemma insert_desc_sorted (x : Job) (l : list Job) :
  Sorted desc l -> Sorted desc (insert_desc x l).
Proof.
  induction l as [|y r IH]; intro HS; simpl.
  - repeat constructor.
  - inversion HS as [|? ? Hr Hhd]; subst.
    destruct (qltb (pscore y) (pscore x)) eqn:E.
    + constructor; [exact HS|]. constructor. apply qltb_iff in E. unfold desc. apply Qlt_le_weak. exact E.
    + constructor; [apply IH; exact Hr|]. apply insert_desc_hd; [exact Hhd|].
      unfold desc. apply Qnot_lt_le. rewrite <- qltb_iff. rewrite E. discriminate.
Qed.

Lemma sort_fold_sorted (l acc : list Job) :
  Sorted desc acc -> Sorted desc (fold_left (fun acc x => insert_desc x acc) l acc).
Proof.
  revert acc. induction l as [|x l IH]; intros acc H; simpl; [exact H|].
  apply IH, insert_desc_sorted, H.
Qed.

Lemma filter_all_false {A} (f : A -> bool) (l : list A) :
  (forall z, In z l -> f z = false) -> filter f l = [].
Proof.
  induction l as [|a l IH]; intro H; simpl; [reflexivity|].
  rewrite (H a (or_introl eq_refl)). apply IH. intros z Hz. apply H. right. exact Hz.
Qed.

Lemma insert_desc_stable (q : Q) (x : Job) (l : list Job) :
  Sorted desc l ->
  filter (score_class q) (insert_desc x l) = (filter (score_class q) l ++ filter (score_class q) [x])%list.
Proof.
  induction l as [|y r IH]; intro HS; simpl; [reflexivity|].
  destruct (qltb (pscore y) (pscore x)) eqn:E.
  - apply qltb_iff in E.
    apply Sorted_StronglySorted in HS; [|exact desc_trans].
    inversion HS as [|? ? _ Hall]; subst.
    destruct (score_class q x) eqn:Ex.
    + simpl. rewrite Ex.
      assert (Hnil : filter (score_class q) (y :: r) = []).
      { apply filter_all_false. intros z Hz. unfold score_class in *.
        apply Qeq_bool_iff in Ex. apply not_true_iff_false. rewrite Qeq_bool_iff. intro Hzq.
        assert (Hzy : (pscore z <= pscore y)%Q).
        { destruct Hz as [<- | Hz]; [apply Qle_refl|].
          rewrite Forall_forall in Hall. exact (Hall z Hz). }
        lra. }
      simpl in Hnil. rewrite Hnil. reflexivity.
    + simpl. rewrite Ex. rewrite app_nil_r. reflexivity.
  - inversion HS as [|? ? Hr _]; subst. simpl.
    destruct (score_class q y); rewrite (IH Hr); reflexivity.
Qed.

Lemma sort_fold_stable (q : Q) (l acc : list Job) :
  Sorted desc acc ->
  filter (score_class q) (fold_left (fun acc x => insert_desc x acc) l acc) =
  (filter (score_class q) acc ++ filter (score_class q) l)%list.
Proof.
  revert acc. induction l as [|x l IH]; intros acc H; simpl.
  - rewrite app_nil_r. reflexivity.
  - rewrite IH by (apply insert_desc_sorted, H).
    rewrite insert_desc_stable by exact H. rewrite <- app_assoc. simpl.
    destruct (score_class q x); reflexivity.
Qed.

Lemma sorted_firstn {A} (R : A -> A -> Prop) (n : nat) (l : list A) :
  Sorted R l -> Sorted R (firstn n l).
Proof.
  revert n. induction l as [|a l IH]; intros n H.
  - destruct n; simpl; constructor.
  - destruct n as [|n]; simpl; [constructor|].
    inversion H as [|? ? Hl Hhd]; subst. constructor; [apply IH; exact Hl|].
    destruct l as [|b l]; destruct n; simpl; constructor. inversion Hhd; assumption.
Qed.

(** ** C4: which domain-relevant jobs the pre-filter keeps *)

(** C4: for a domain-relevant job, with [cs] the candidate's skill set and
    [js] the job's normalised skill set, the loop appends the job with
    [preliminary_score = 50] when [js] is empty; otherwise it appends it iff
    [skill_score > 0] or [len(js) <= 5], with [preliminary_score =
    skill_score * 100].  So with zero overlap a job of more than 5 skills is
    dropped and one of at most 5 is kept; [filtered_jobs] is the list of the
    appended jobs in catalog order. *)
Theorem C4_prefilter_keep (c : Candidate) (j : Job) :
  is_tech_job j = true ->
  let cs := candidate_skill_set c in
  let js := job_skill_set j in
  (js = [] -> prefilter_step cs j = Some (with_pscore j 50)) /\
  (js <> [] ->
     (prefilter_step cs j <> None <->
      (0 < skill_score cs js)%Q \/ (List.length js <= 5)%nat) /\
     (forall j', prefilter_step cs j = Some j' ->
                 j' = with_pscore j (skill_score cs js * 100)%Q)) /\
  ((5 < List.length js)%nat -> set_inter cs js = [] -> prefilter_step cs j = None) /\
  (js <> [] -> (List.length js <= 5)%nat -> set_inter cs js = [] ->
     prefilter_step cs j = Some (with_pscore j (skill_score cs js * 100)%Q)) /\
  (forall jobs, snd (filter_loop cs jobs) = kept_jobs cs jobs).
Proof.
  intros Ht cs js.
  assert (Hzero : set_inter cs js = [] -> qltb 0 (skill_score cs js) = false).
  { intro Hi. unfold skill_score. rewrite Hi. reflexivity. }
  unfold prefilter_step. rewrite Ht. fold js.
  split; [intros ->; reflexivity|].
  split; [|split; [|split]].
  - intro Hne. destruct js as [|x xs] eqn:Ejs; [congruence|].
    split.
    + destruct (qltb 0 (skill_score cs (x :: xs))) eqn:Eq; simpl.
      * apply qltb_iff in Eq. split; [intros _; left; exact Eq | intros _; discriminate].
      * destruct (Datatypes.length xs <=? 4)%nat eqn:El.
        -- apply Nat.leb_le in El. split; [intros _; right; simpl; lia | intros _; discriminate].
        -- apply Nat.leb_gt in El. split; [intro H; congruence|].
           intros [H | H]; [|simpl in H; lia].
           apply qltb_iff in H. congruence.
    + intros j'. destruct (_ || _); [intro H; injection H as <-; reflexivity | discriminate].
  - intros Hl Hi. destruct js as [|x xs] eqn:Ejs; [simpl in Hl; lia|].
    rewrite (Hzero Hi). simpl. simpl in Hl.
    destruct (Datatypes.length xs <=? 4)%nat eqn:El; [apply Nat.leb_le in El; lia | reflexivity].
  - intros Hne Hl Hi. destruct js as [|x xs] eqn:Ejs; [congruence|].
    rewrite (Hzero Hi). simpl. simpl in Hl.
    destruct (Datatypes.length xs <=? 4)%nat eqn:El; [reflexivity | apply Nat.leb_gt in El; lia].
  - intro jobs. apply filter_loop_kept.
Qed.

(** ** C5: the pre-filter output is bounded and stably sorted *)

(** C5: the list returned by [_pre_filter_jobs] has at most 50 jobs, is
    sorted by non-increasing [preliminary_score], and is the first 50 jobs of
    a sorted permutation of the kept jobs in which the jobs of each score
    class keep their catalog order. *)
Theorem C5_prefilter_sorted_stable (jobs : list Job) (c : Candidate) :
  let res := snd (pre_filter_jobs jobs c) in
  let kept := kept_jobs (candidate_skill_set c) jobs in
  (List.length res <= 50)%nat /\ Sorted desc res /\
  exists s, res = firstn 50 s /\ Permutation s kept /\ Sorted desc s /\
    forall q, filter (score_class q) s = filter (score_class q) kept.
Proof.
  intros res kept. unfold res, pre_filter_jobs.
  pose proof (filter_loop_kept (candidate_skill_set c) jobs) as Hk.
  destruct (filter_loop (candidate_skill_set c) jobs) as [cat f]. cbn [fst snd] in Hk |- *.
  fold kept in Hk. subst f.
  assert (Hs : Sorted desc (sort_desc kept)) by (apply sort_fold_sorted; constructor).
  split; [apply firstn_le_length|].
  split; [apply sorted_firstn; exact Hs|].
  exists (sort_desc kept). split; [reflexivity|].
  split; [exact (sort_fold_perm kept [])|].
  split; [exact Hs|].
  intro q. unfold sort_desc. rewrite sort_fold_stable by constructor. reflexivity.
Qed.

(** ** C8: what the pre-filter writes into the catalog *)

(** C8 (counterexample): run on a one-job catalog, the pre-filter leaves the
    catalog's job with a [preliminary_score] it did not have. *)
Lemma C8_counterexample :
  map preliminary_score [job_no_minimum] = [None] /\
  map preliminary_score (fst (pre_filter_jobs [job_no_minimum] cand_one_entry)) = [Some 50%Q].
Proof. vm_compute. split; reflexivity. Qed.

(** C8 (amended): the pre-filter writes [preliminary_score] into each job
    it keeps, in the catalog it is given; a job it drops is left as it was,
    no field other than [preliminary_score] changes, and the jobs it returns
    are entries of that updated catalog. *)
Theorem C8_prefilter_writes_only_pscore (jobs : list Job) (c : Candidate) :
  let cs := candidate_skill_set c in
  Forall2 (fun j j' => (prefilter_step cs j = None /\ j' = j) \/
                       (prefilter_step cs j = Some j' /\ j' = with_pscore j (pscore j')))
          jobs (fst (pre_filter_jobs jobs c)) /\
  incl (snd (pre_filter_jobs jobs c)) (fst (pre_filter_jobs jobs c)).
Proof.
  intro cs. unfold pre_filter_jobs.
  destruct (filter_loop_catalog cs jobs) as [H1 H2]. fold cs.
  destruct (filter_loop cs jobs) as [cat f]. cbn [fst snd] in *.
  split; [exact H1|].
  intros x Hx. apply H2.
  apply (Permutation_in _ (sort_fold_perm f [])).
  change (In x (sort_desc f)).
  rewrite <- (firstn_skipn 50 (sort_desc f)). apply in_or_app. left. exact Hx.
Qed.

(** ** C6: the CSV loader *)

Lemma parse_row_title (row : Row) (j : Job) : parse_row row = Some j -> title j <> "".
Proof.
  unfold parse_row, obind. intro H. destruct row as [|kv row]; [discriminate|].
  destruct (row_get_strip _ "Job Title") as [t|]; [|discriminate].
  destruct (row_get_strip _ "Role") as [r|]; [|discriminate].
  destruct (String.eqb t "") eqn:Et; [discriminate|].
  inv_binds H. injection H as <-. simpl. intro Ht. subst. discriminate.
Qed.

Lemma load_rows_inv (rows : list (option Row)) (i : nat) (js : list Job) :
  load_rows i rows = Some js ->
  Forall (fun j => title j <> "") js /\ (List.length js <= 100 - i)%nat.
Proof.
  revert i js. induction rows as [|[row|] rest IH]; intros i js H; cbn [load_rows] in H.
  - injection H as <-. split; [constructor | simpl; lia].
  - destruct (100 <=? i)%nat eqn:Ei.
    + injection H as <-. split; [constructor | simpl; lia].
    + apply Nat.leb_gt in Ei.
      destruct (parse_row row) as [j|] eqn:Ep.
      * unfold obind in H. destruct (load_rows (S i) rest) as [js'|] eqn:Er; [|discriminate].
        injection H as <-. destruct (IH _ _ Er) as [Hf Hl].
        split; [constructor; [exact (parse_row_title _ _ Ep) | exact Hf] | cbn [List.length]; lia].
      * destruct (IH _ _ H) as [Hf Hl]. split; [exact Hf | lia].
  - discriminate.
Qed.

Lemma load_rows_map (rows : list Row) (i : nat) :
  (i <= 100)%nat ->
  load_rows i (map Some rows) = Some (parsed_rows (firstn (100 - i) rows)).
Proof.
  revert i. induction rows as [|row rest IH]; intros i Hi; cbn [load_rows map].
  - rewrite firstn_nil. reflexivity.
  - destruct (100 <=? i)%nat eqn:Ei.
    + apply Nat.leb_le in Ei. replace (100 - i)%nat with 0%nat by lia. reflexivity.
    + apply Nat.leb_gt in Ei. replace (100 - i)%nat with (S (100 - S i)) by lia.
      rewrite IH by lia. cbn [firstn parsed_rows flat_map].
      destruct (parse_row row); reflexivity.
Qed.

(** C6 (counterexample): a source whose first row has a blank title and
    which has 100 titled rows after it gives a catalog of 99 jobs, not the
    first 100 accepted rows. *)
Lemma C6_counterexample :
  List.length (parsed_rows blank_then_100) = 100%nat /\
  List.length (load_jobs_from_csv (Some (map Some blank_then_100))) = 99%nat.
Proof. vm_compute. split; reflexivity. Qed.

(** C6 (amended): no job of the loaded catalog has an empty title, the
    catalog has at most 100 jobs, and for a source read without [csv.Error]
    it is exactly the accepted rows among the first 100 data rows, skipped
    rows counting towards the 100. *)
Theorem C6_loader_first_100_rows (src : option (list (option Row))) (rows : list Row) :
  Forall (fun j => title j <> "") (load_jobs_from_csv src) /\
  (List.length (load_jobs_from_csv src) <= 100)%nat /\
  load_jobs_from_csv (Some (map Some rows)) = parsed_rows (firstn 100 rows).
Proof.
  split; [|split].
  - destruct src as [rows'|]; simpl; [|constructor].
    destruct (load_rows 0 rows') as [js|] eqn:E; [|constructor].
    exact (proj1 (load_rows_inv _ _ _ E)).
  - destruct src as [rows'|]; simpl; [|lia].
    destruct (load_rows 0 rows') as [js|] eqn:E; [|simpl; lia].
    pose proof (proj2 (load_rows_inv _ _ _ E)). lia.
  - simpl. rewrite load_rows_map by lia. reflexivity.
Qed.

(** ** C7: pagination *)

Lemma py_slice_nonneg {A} (l : list A) (s k : Z) :
  (0 <= s)%Z -> (0 <= k)%Z ->
  py_slice l s (s + k) = firstn (Z.to_nat k) (skipn (Z.to_nat s) l).
Proof.
  intros Hs Hk. unfold py_slice.
  assert (Hs' : (s <? 0)%Z = false) by (apply Z.ltb_ge; lia).
  assert (He' : (s + k <? 0)%Z = false) by (apply Z.ltb_ge; lia).
  rewrite Hs', He'.
  set (n := Z.of_nat (List.length l)).
  destruct (Z.le_gt_cases n s) as [Hns | Hsn].
  - rewrite (Z.min_r s n) by lia. rewrite (Z.min_r (s + k) n) by lia.
    rewrite (skipn_all2 (n := Z.to_nat n)) by (unfold n; lia).
    rewrite (skipn_all2 (n := Z.to_nat s)) by (unfold n in Hns; lia).
    rewrite !firstn_nil. reflexivity.
  - rewrite (Z.min_l s n) by lia.
    destruct (Z.le_gt_cases (s + k) n) as [Hen | Hne].
    + rewrite (Z.min_l (s + k) n) by lia. f_equal. f_equal. lia.
    + rewrite (Z.min_r (s + k) n) by lia.
      rewrite (firstn_all2 (n := Z.to_nat (n - s))) by (rewrite length_skipn; unfold n; lia).
      rewrite (firstn_all2 (n := Z.to_nat k)) by (rewrite length_skipn; unfold n in Hne; lia).
      reflexivity.
Qed.

Lemma ceil_div_bounds (n p : Z) :
  (0 < p)%Z -> (n <= (n + p - 1) / p * p < n + p)%Z.
Proof.
  intro Hp.
  pose proof (Z.div_mod (n + p - 1) p ltac:(lia)) as Hd.
  pose proof (Z.mod_pos_bound (n + p - 1) p Hp) as Hm.
  rewrite (Z.mul_comm _ p). lia.
Qed.

(** C7: for [page >= 1] and [per_page >= 1], [total] is the number of jobs
    the pre-filter returns, [total_pages] is the ceiling of [total /
    per_page], and the matches are the scored jobs of the slice
    [[(page - 1) * per_page, page * per_page)] of the filtered list, in its
    order; a page past the end gives no matches; 25 filtered jobs with
    [per_page = 10], [page = 3] give 5 matches and 3 pages. *)
Theorem C7_pagination (jobs : list Job) (c : Candidate) (pg pp : Z) (use_ai : bool) :
  (1 <= pg)%Z -> (1 <= pp)%Z ->
  let r := snd (match_candidate_with_jobs jobs c pg pp use_ai) in
  let f := snd (pre_filter_jobs jobs c) in
  total (pagination r) = Z.of_nat (List.length f) /\
  (total (pagination r) <= total_pages (pagination r) * pp < total (pagination r) + pp)%Z /\
  matches r = map (mk_match c) (firstn (Z.to_nat pp) (skipn (Z.to_nat ((pg - 1) * pp)) f)) /\
  ((Z.of_nat (List.length f) <= (pg - 1) * pp)%Z -> matches r = []) /\
  (List.length f = 25%nat -> pp = 10%Z -> pg = 3%Z ->
     List.length (matches r) = 5%nat /\ total_pages (pagination r) = 3%Z).
Proof.
  intros Hpg Hpp r f. unfold r, f, match_candidate_with_jobs.
  destruct (pre_filter_jobs jobs c) as [cat fl]. cbn [snd].
  assert (Hz : Z.eqb pp 0 = false) by (apply Z.eqb_neq; lia). rewrite Hz.
  cbn [snd matches pagination total total_pages].
  rewrite py_slice_nonneg by nia.
  split; [reflexivity|].
  split; [apply ceil_div_bounds; lia|].
  split; [reflexivity|].
  split.
  - intro Hout. rewrite (skipn_all2 (n := Z.to_nat ((pg - 1) * pp))) by nia.
    rewrite firstn_nil. reflexivity.
  - intros Hl -> ->. rewrite Hl. split; [|reflexivity].
    rewrite length_map, length_firstn, length_skipn, Hl. reflexivity.
Qed.

(** ** C10: the [use_ai] flag *)

(** C10: [match_candidate_with_jobs] gives the same catalog and result for
    [use_ai = false] and [use_ai = true]; every match is built by [mk_match]
    from the deterministic scorer, with no other analysis source. *)
Theorem C10_use_ai_ignored (jobs : list Job) (c : Candidate) (pg pp : Z) :
  match_candidate_with_jobs jobs c pg pp false = match_candidate_with_jobs jobs c pg pp true /\
  exists page_jobs,
    matches (snd (match_candidate_with_jobs jobs c pg pp false)) = map (mk_match c) page_jobs /\
    Forall (fun m => exists j, m = mk_match c j /\
              mo_ai_analysis m =
                ai_analysis (calculate_match_score_sync (cand_to_py c) (req_to_py (requirements j))))
           (matches (snd (match_candidate_with_jobs jobs c pg pp false))).
Proof.
  split; [reflexivity|].
  unfold match_candidate_with_jobs.
  destruct (pre_filter_jobs jobs c) as [cat fl].
  destruct (Z.eqb pp 0).
  - exists []. split; [reflexivity | constructor].
  - eexists. split; [reflexivity|]. cbn [snd matches].
    apply Forall_forall. intros m Hm. apply in_map_iff in Hm.
    destruct Hm as (j & <- & _). exists j. split; reflexivity.
Qed.

(** ** Instances of the theorems on concrete inputs *)

(** C2 at a candidate with 2 estimated years and a job asking for 3. *)
Lemma C2_witness :
  let r := calculate_match_score_sync (cand_to_py cand_one_entry)
             (PDict [("skills", strs []); ("experience", PDict [("minimum_years", PInt 3)])]) in
  total_score r = py_max 0 (skill_match r - 10).
Proof.
  exact (proj2 (C2_experience_adjustment cand_one_entry []
                  (PDict [("minimum_years", PInt 3)]))
               [("minimum_years", PInt 3)] 3%Z eq_refl ltac:(discriminate) eq_refl
               ltac:(discriminate)).
Defined.

(** C3 on a candidate with one of two required skills and too few years. *)
Lemma C3_witness :
  let cand := PDict [("skills", strs ["Python"]);
                     ("experience", PList [exp_entry_to_py (mkExpEntry None (Some "2020-2021") None)])] in
  let jr := req_to_py {| req_skills := ["python"; "sql"];
                         req_experience := {| minimum_years := 3; exp_req_description := [] |};
                         req_education := [] |} in
  score_body cand jr = Some (calculate_match_score_sync cand jr) /\
  total_score (calculate_match_score_sync cand jr) =
    experience_match (calculate_match_score_sync cand jr).
Proof.
  intros cand jr.
  assert (H : score_body cand jr = Some (calculate_match_score_sync cand jr))
    by (vm_compute; reflexivity).
  split; [exact H | exact (proj1 (proj2 (C3_subscores_equal_adjusted cand jr _ H)))].
Defined.

(** C4 on a six-skill job with no overlap: dropped. *)
Lemma C4_witness :
  is_tech_job job_six_skills = true /\
  prefilter_step (candidate_skill_set cand_one_entry) job_six_skills = None.
Proof.
  assert (Ht : is_tech_job job_six_skills = true) by (vm_compute; reflexivity).
  split; [exact Ht|].
  apply (proj1 (proj2 (proj2 (C4_prefilter_keep cand_one_entry job_six_skills Ht)))).
  - apply Nat.ltb_lt. vm_compute. reflexivity.
  - vm_compute. reflexivity.
Defined.

(** C7 on 25 filtered jobs, 10 per page, page 3. *)
Lemma C7_witness :
  List.length (matches (snd (match_candidate_with_jobs catalog_25 cand_one_entry 3 10 false))) = 5%nat /\
  total_pages (pagination (snd (match_candidate_with_jobs catalog_25 cand_one_entry 3 10 false))) = 3%Z.
Proof.
  apply (proj2 (proj2 (proj2 (proj2
           (C7_pagination catalog_25 cand_one_entry 3 10 false ltac:(lia) ltac:(lia)))))).
  - vm_compute. reflexivity.
  - reflexivity.
  - reflexivity.
Defined.

(** C9 on a job-requirements value that is a string, not a dict. *)
Lemma C9_witness :
  is_dict (PStr "python, sql") = false /\
  (total_score (calculate_match_score_sync (cand_to_py cand_one_entry) (PStr "python, sql")) == 50)%Q.
Proof.
  assert (H : is_dict (PStr "python, sql") = false) by reflexivity.
  split; [exact H|].
  exact (proj1 (proj1 (proj2 (proj2 (proj2
           (C9_never_raises_fallback (cand_to_py cand_one_entry) (PStr "python, sql")))))
           cand_one_entry H)).
Defined.


(** * Further properties of the program *)

Open Scope list_scope.

(** ** Lemmas on sets, sorting and the option monad *)

Lemma mem_In (x : string) (l : list string) : mem x l = true <-> In x l.
Proof.
  unfold mem. rewrite existsb_exists. split.
  - intros (y & Hy & E). apply String.eqb_eq in E. subst. exact Hy.
  - intro H. exists x. split; [exact H | apply String.eqb_refl].
Qed.

Lemma set_of_fold (l acc : list string) :
  NoDup acc ->
  NoDup (fold_left (fun acc x => if mem x acc then acc else (acc ++ [x])%list) l acc) /\
  (forall y, In y (fold_left (fun acc x => if mem x acc then acc else (acc ++ [x])%list) l acc)
             <-> In y acc \/ In y l).
Proof.
  revert acc. induction l as [|x l IH]; intros acc Hn; simpl.
  - split; [exact Hn | intro y; tauto].
  - destruct (mem x acc) eqn:E.
    + apply mem_In in E. destruct (IH acc Hn) as [H1 H2]. split; [exact H1|].
      intro y. rewrite H2. split; [tauto|]. intros [H|[<-|H]]; tauto.
    + assert (Hn' : NoDup (acc ++ [x])).
      { apply NoDup_app; [exact Hn | repeat constructor; simpl; tauto|].
        intros y Hy [<-|[]]. apply (proj2 (mem_In x acc)) in Hy. congruence. }
      destruct (IH _ Hn') as [H1 H2]. split; [exact H1|].
      intro y. rewrite H2, in_app_iff. simpl. tauto.
Qed.

Lemma set_of_NoDup (l : list string) : NoDup (set_of l).
Proof. apply (set_of_fold l []). constructor. Qed.

Lemma set_of_In (l : list string) (y : string) : In y (set_of l) <-> In y l.
Proof. unfold set_of. rewrite (proj2 (set_of_fold l [] (NoDup_nil _))). simpl. tauto. Qed.


Lemma mapM_Some {A B} (f : A -> option B) (l : list A) :
  (forall x, In x l -> f x <> None) -> mapM f l <> None.
Proof.
  induction l as [|a l IH]; intro H; simpl; [discriminate|].
  destruct (f a) as [b|] eqn:E; [|exfalso; apply (H a); [left; reflexivity | exact E]].
  simpl. destruct (mapM f l) as [bs|] eqn:E2; [discriminate|].
  exfalso. apply IH; [intros x Hx; apply H; right; exact Hx | reflexivity].
Qed.

(** *** the generic stable descending insertion sort *)

Lemma insert_desc_by_perm {A} (key : A -> Q) (x : A) (l : list A) :
  Permutation (insert_desc_by key x l) (x :: l).
Proof.
  induction l as [|y r IH]; simpl; [reflexivity|].
  destruct (qltb (key y) (key x)); [reflexivity|].
  eapply perm_trans; [apply perm_skip; exact IH | apply perm_swap].
Qed.

Lemma sort_desc_by_perm {A} (key : A -> Q) (l : list A) : Permutation (sort_desc_by key l) l.
Proof.
  unfold sort_desc_by. change l with (([] ++ l)%list) at 2. generalize (@nil A) as acc.
  induction l as [|x l IH]; intro acc; simpl.
  - rewrite app_nil_r. reflexivity.
  - eapply perm_trans; [apply IH|].
    eapply perm_trans; [apply Permutation_app_tail, insert_desc_by_perm|].
    simpl. apply Permutation_middle.
Qed.

Lemma insert_desc_by_sorted {A} (key : A -> Q) (x : A) (l : list A) :
  Sorted (fun a b => key b <= key a)%Q l -> Sorted (fun a b => key b <= key a)%Q (insert_desc_by key x l).
Proof.
  induction l as [|y r IH]; intro HS; simpl.
  - repeat constructor.
  - inversion HS as [|? ? Hr Hhd]; subst.
    destruct (qltb (key y) (key x)) eqn:E.
    + constructor; [exact HS|]. constructor. apply qltb_iff in E. apply Qlt_le_weak. exact E.
    + constructor; [apply IH; exact Hr|].
      assert (Hyx : (key x <= key y)%Q).
      { apply Qnot_lt_le. rewrite <- qltb_iff. rewrite E. discriminate. }
      destruct r as [|z r']; simpl.
      * constructor. exact Hyx.
      * destruct (qltb (key z) (key x)); constructor; [exact Hyx | inversion Hhd; assumption].
Qed.

Lemma sort_desc_by_sorted {A} (key : A -> Q) (l : list A) :
  Sorted (fun a b => key b <= key a)%Q (sort_desc_by key l).
Proof.
  unfold sort_desc_by. assert (H : Sorted (fun a b => key b <= key a)%Q (@nil A)) by constructor.
  revert H. generalize (@nil A) as acc.
  induction l as [|x l IH]; intros acc H; simpl; [exact H|].
  apply IH, insert_desc_by_sorted, H.
Qed.

(** ** [calculate_years_of_experience], [determine_experience_level], [extract_experience] *)

Lemma calc_years_acc (es : list ExpEntry) (t : nat) :
  fold_left (fun total_years e =>
               match period e with
               | Some p => total_years + List.length (PyStr.split "-" p)
               | None => total_years
               end) es t = t + calculate_years_of_experience es.
Proof.
  unfold calculate_years_of_experience. revert t.
  induction es as [|e es IH]; intro t; simpl; [lia|].
  rewrite IH. rewrite (IH (match period e with Some p => _ | None => 0 end)).
  destruct (period e); lia.
Qed.

Lemma calc_years_app (es1 es2 : list ExpEntry) :
  calculate_years_of_experience (es1 ++ es2) =
  calculate_years_of_experience es1 + calculate_years_of_experience es2.
Proof.
  unfold calculate_years_of_experience at 1. rewrite fold_left_app.
  fold (calculate_years_of_experience es1). rewrite calc_years_acc. reflexivity.
Qed.

Lemma calc_years_cons (e : ExpEntry) (es : list ExpEntry) :
  calculate_years_of_experience (e :: es) =
  match period e with Some p => S (PyStr.count_char "-" p) | None => 0 end
  + calculate_years_of_experience es.
Proof.
  change (e :: es) with ([e] ++ es). rewrite calc_years_app. f_equal.
  unfold calculate_years_of_experience. simpl. destruct (period e); [|reflexivity].
  rewrite split_length. reflexivity.
Qed.

Lemma calc_years_periods (es : list ExpEntry) :
  calculate_years_of_experience es =
  list_sum (map (fun p => S (PyStr.count_char "-" p)) (entry_periods es)).
Proof.
  induction es as [|e es IH]; [reflexivity|].
  rewrite calc_years_cons, IH. unfold entry_periods. simpl.
  destruct (period e); simpl; reflexivity.
Qed.

Lemma level_rank_determine (y : nat) :
  level_rank (determine_experience_level y) =
  if Nat.ltb y 2 then 0 else if Nat.ltb y 5 then 1 else if Nat.ltb y 8 then 2
  else if Nat.ltb y 12 then 3 else 4.
Proof.
  unfold determine_experience_level.
  destruct (Nat.ltb y 2), (Nat.ltb y 5), (Nat.ltb y 8), (Nat.ltb y 12); reflexivity.
Qed.

Lemma level_rank_monotone (y1 y2 : nat) :
  y1 <= y2 -> level_rank (determine_experience_level y1) <= level_rank (determine_experience_level y2).
Proof.
  intro H. rewrite !level_rank_determine.
  destruct (Nat.ltb_spec y1 2), (Nat.ltb_spec y1 5), (Nat.ltb_spec y1 8), (Nat.ltb_spec y1 12);
  destruct (Nat.ltb_spec y2 2), (Nat.ltb_spec y2 5), (Nat.ltb_spec y2 8), (Nat.ltb_spec y2 12);
  lia.
Qed.

(** X: experience level monotone *)
(** X1: [calculate_years_of_experience] adds up over a concatenation of
    experience lists (each entry contributes the number of ['-']-separated
    pieces of its period, an entry without a period nothing), so adding
    entries never lowers the level [determine_experience_level] assigns. *)
Theorem X1_experience_level_monotone (es1 es2 : list ExpEntry) :
  calculate_years_of_experience (es1 ++ es2) =
    calculate_years_of_experience es1 + calculate_years_of_experience es2 /\
  level_rank (determine_experience_level (calculate_years_of_experience es1)) <=
    level_rank (determine_experience_level (calculate_years_of_experience (es1 ++ es2))).
Proof.
  rewrite calc_years_app. split; [reflexivity|]. apply level_rank_monotone. lia.
Qed.

(** X: scorer estimate vs calculate_years *)
(** X2: on a candidate's experience entries, the estimate of the scorer
    ([len(exp.get('period', '').split('-'))] summed) is defined and exceeds
    [calculate_years_of_experience] by exactly the number of entries that
    have no period. *)
Theorem X2_years_scorer_vs_helper (es : list ExpEntry) :
  exists ys, mapM period_years (map exp_entry_to_py es) = Some ys /\
  list_sum ys = calculate_years_of_experience es +
                List.length (filter (fun e => match period e with None => true | Some _ => false end) es).
Proof.
  eexists. split; [apply mapM_period_years|].
  induction es as [|e es IH]; [reflexivity|].
  simpl. rewrite IH, calc_years_cons. destruct (period e); simpl; lia.
Qed.

(** *** extract_experience *)

Lemma exp_empty_period (e : ExpEntry) : exp_empty e = true -> period e = None.
Proof. destruct e as [t p d]; destruct t, p, d; simpl; congruence. Qed.

Lemma exp_empty_desc (t p : option string) (d : string) :
  exp_empty (mkExpEntry t p (Some d)) = false.
Proof. destruct t, p; reflexivity. Qed.

Lemma experience_step_periods (st : list ExpEntry * ExpEntry) (line : string) :
  entry_periods (exp_out (experience_step st line)) =
  entry_periods (exp_out st) ++ (if has_year line then [line] else []).
Proof.
  destruct st as [acc cur]. unfold experience_step.
  destruct (has_year line).
  - unfold exp_out. destruct (exp_empty cur); simpl; unfold entry_periods;
      rewrite ?flat_map_app; simpl; reflexivity.
  - rewrite app_nil_r. destruct (any_in title_words (PyStr.lower line)).
    + destruct (exp_title cur) eqn:Et; [reflexivity|].
      unfold exp_out.
      change (exp_empty (mkExpEntry (Some line) (period cur) (exp_description cur))) with false.
      cbv iota. unfold entry_periods. rewrite flat_map_app. simpl.
      destruct (exp_empty cur) eqn:Ee.
      * rewrite (exp_empty_period _ Ee). rewrite app_nil_r. reflexivity.
      * rewrite flat_map_app. reflexivity.
    + destruct (exp_empty cur) eqn:Ee; [reflexivity|].
      unfold exp_out.
      rewrite exp_empty_desc.
      rewrite Ee. unfold entry_periods. rewrite !flat_map_app. reflexivity.
Qed.

Lemma experience_fold_periods (lines : list string) (st : list ExpEntry * ExpEntry) :
  entry_periods (exp_out (fold_left experience_step lines st)) =
  entry_periods (exp_out st) ++ filter has_year lines.
Proof.
  revert st. induction lines as [|l lines IH]; intro st; simpl.
  - rewrite app_nil_r. reflexivity.
  - rewrite IH, experience_step_periods, <- app_assoc. destruct (has_year l); reflexivity.
Qed.

Lemma tl_snoc {A} (P : A -> Prop) (l : list A) (x : A) :
  Forall P (tl l) -> P x -> Forall P (tl (l ++ [x])).
Proof.
  destruct l as [|a l]; simpl; intros H Hx; [constructor|].
  apply Forall_app. split; [exact H | constructor; [exact Hx | constructor]].
Qed.

Lemma experience_step_other (acc : list ExpEntry) (cur : ExpEntry) (line : string) :
  has_year line = false ->
  fst (experience_step (acc, cur) line) = acc /\
  period (snd (experience_step (acc, cur) line)) = period cur.
Proof.
  intro H. unfold experience_step. rewrite H.
  destruct (any_in title_words (PyStr.lower line)).
  - destruct (exp_title cur); split; reflexivity.
  - destruct (exp_empty cur); split; reflexivity.
Qed.

Lemma experience_step_inv (st : list ExpEntry * ExpEntry) (line : string) :
  exp_tail_inv st -> exp_tail_inv (experience_step st line).
Proof.
  destruct st as [acc cur]. intro Hi. unfold exp_tail_inv in Hi. cbn [fst snd] in Hi.
  destruct (has_year line) eqn:Hy.
  - unfold experience_step. rewrite Hy. unfold exp_tail_inv. cbn [fst snd].
    right. split; [discriminate|].
    destruct Hi as [[-> Hp] | [Hp Ht]].
    + destruct (exp_empty cur); simpl; constructor.
    + assert (He : exp_empty cur = false).
      { destruct (exp_empty cur) eqn:E; [apply exp_empty_period in E; congruence | reflexivity]. }
      rewrite He. apply tl_snoc; assumption.
  - destruct (experience_step_other acc cur line Hy) as [H1 H2].
    destruct (experience_step (acc, cur) line) as [acc' cur']. cbn [fst snd] in H1, H2.
    unfold exp_tail_inv. cbn [fst snd]. rewrite H1, H2. exact Hi.
Qed.

Lemma experience_fold_inv (lines : list string) (st : list ExpEntry * ExpEntry) :
  exp_tail_inv st -> exp_tail_inv (fold_left experience_step lines st).
Proof.
  revert st. induction lines as [|l lines IH]; intros st H; simpl; [exact H|].
  apply IH, experience_step_inv, H.
Qed.

(** X: extract_experience *)
(** X3: the periods of the entries [extract_experience] returns are exactly
    the lines of the text that contain a year 1990..2024, in text order;
    every entry after the first carries a period; and the years
    [calculate_years_of_experience] computes from them are the sum, over
    those lines, of one more than the number of hyphens. *)
Theorem X3_extract_experience_periods (text : string) :
  let es := extract_experience text in
  entry_periods es = filter has_year (PyStr.split newline text) /\
  Forall (fun e => period e <> None) (tl es) /\
  calculate_years_of_experience es =
    list_sum (map (fun line => S (PyStr.count_char "-" line))
                  (filter has_year (PyStr.split newline text))).
Proof.
  intro es.
  assert (Hes : es = exp_out (fold_left experience_step (PyStr.split newline text) ([], no_exp)))
    by reflexivity.
  assert (Hp : entry_periods es = filter has_year (PyStr.split newline text)).
  { rewrite Hes, experience_fold_periods. reflexivity. }
  split; [exact Hp|]. split.
  - assert (Hi := experience_fold_inv (PyStr.split newline text) ([], no_exp)
                    (or_introl (conj eq_refl eq_refl))).
    rewrite Hes. destruct (fold_left experience_step (PyStr.split newline text) ([], no_exp))
      as [acc cur]. unfold exp_tail_inv in Hi. simpl in Hi. unfold exp_out.
    destruct Hi as [[-> Hc] | [Hc Ht]].
    + destruct (exp_empty cur); simpl; constructor.
    + assert (He : exp_empty cur = false).
      { destruct (exp_empty cur) eqn:E; [apply exp_empty_period in E; congruence | reflexivity]. }
      rewrite He. apply tl_snoc; assumption.
  - rewrite calc_years_periods, Hp. reflexivity.
Qed.

(** ** [extract_education] *)

Lemma find_seq (f : nat -> bool) (a n : nat) :
  match find f (seq a n) with
  | Some y => a <= y < a + n /\ f y = true /\ forall y', a <= y' < y -> f y' = false
  | None => forall y, a <= y < a + n -> f y = false
  end.
Proof.
  revert a. induction n as [|n IH]; intro a; simpl.
  - intros y Hy. lia.
  - destruct (f a) eqn:E.
    + split; [lia|]. split; [exact E|]. intros y' Hy'. lia.
    + specialize (IH (S a)). destruct (find f (seq (S a) n)) as [y|].
      * destruct IH as (H1 & H2 & H3). split; [lia|]. split; [exact H2|].
        intros y' Hy'. destruct (Nat.eq_dec y' a) as [->|Hne]; [exact E|]. apply H3. lia.
      * intros y Hy. destruct (Nat.eq_dec y a) as [->|Hne]; [exact E|]. apply IH. lia.
Qed.

Lemma education_step_out (st : list EduFound * option EduFound) (line : string) :
  (any_in edu_words (PyStr.lower line) = true ->
   edu_out (education_step st line) = edu_out st ++ [mkEduFound line (first_year line) None]) /\
  (any_in edu_words (PyStr.lower line) = false ->
   map (fun e => (found_degree e, found_year e)) (edu_out (education_step st line)) =
   map (fun e => (found_degree e, found_year e)) (edu_out st)).
Proof.
  destruct st as [acc cur]. split; intro H; unfold education_step; rewrite H.
  - unfold edu_out. cbn [fst snd]. destruct cur; reflexivity.
  - destruct cur as [e|]; [|reflexivity].
    destruct (found_institution e); [reflexivity|].
    unfold edu_out. cbn [fst snd]. rewrite !map_app. reflexivity.
Qed.

Lemma education_fold (lines : list string) (st : list EduFound * option EduFound) :
  map (fun e => (found_degree e, found_year e)) (edu_out (fold_left education_step lines st)) =
  map (fun e => (found_degree e, found_year e)) (edu_out st) ++
  map (fun l => (l, first_year l)) (filter (fun l => any_in edu_words (PyStr.lower l)) lines).
Proof.
  revert st. induction lines as [|l lines IH]; intro st; cbn [fold_left filter].
  - cbn [map]. rewrite app_nil_r. reflexivity.
  - rewrite IH. destruct (any_in edu_words (PyStr.lower l)) eqn:E.
    + rewrite (proj1 (education_step_out st l) E), map_app, <- app_assoc. reflexivity.
    + rewrite (proj2 (education_step_out st l) E). reflexivity.
Qed.

(** X: extract_education *)
(** X4: the degrees [extract_education] returns are exactly the lines of the
    text that contain an education keyword, in text order; the year of each
    entry is the smallest year of 1990..2024 whose decimal text occurs in
    that line, and no year when none occurs. *)
Theorem X4_extract_education_degrees (text : string) :
  let es := extract_education text in
  map found_degree es = filter (fun l => any_in edu_words (PyStr.lower l)) (PyStr.split newline text) /\
  Forall (fun e =>
            match found_year e with
            | Some y => 1990 <= y <= 2024 /\ PyStr.contains (PyStr.of_nat y) (found_degree e) = true /\
                        forall y', 1990 <= y' < y -> PyStr.contains (PyStr.of_nat y') (found_degree e) = false
            | None => forall y, 1990 <= y <= 2024 -> PyStr.contains (PyStr.of_nat y) (found_degree e) = false
            end) es.
Proof.
  intro es.
  assert (H := education_fold (PyStr.split newline text) ([], None)).
  change (edu_out (fold_left education_step (PyStr.split newline text) ([], None))) with es in H.
  cbn [edu_out map app] in H.
  split.
  - apply (f_equal (map fst)) in H. rewrite !map_map in H. exact (eq_trans H (map_id _)).
  - apply Forall_forall. intros e He.
    assert (Hin : In (found_degree e, found_year e)
                    (map (fun l => (l, first_year l))
                         (filter (fun l => any_in edu_words (PyStr.lower l)) (PyStr.split newline text)))).
    { rewrite <- H. apply in_map_iff. exists e. split; [reflexivity | exact He]. }
    apply in_map_iff in Hin. destruct Hin as (l & Hl & _). injection Hl as Hd Hy.
    rewrite <- Hy, <- Hd. unfold first_year, resume_years.
    pose proof (find_seq (fun y => PyStr.contains (PyStr.of_nat y) l) 1990 35) as Hf.
    destruct (find _ (seq 1990 35)) as [y|].
    + destruct Hf as (H1 & H2 & H3). split; [lia|]. split; [exact H2 | exact H3].
    + intros y Hy'. apply Hf. lia.
Qed.

(** ** [get_highest_education_level] *)

Lemma raise_level_gen (d : string) (ls : list (string * nat)) (h : nat) :
  fold_left (fun h lv => if PyStr.contains (fst lv) d && Nat.ltb h (snd lv) then snd lv else h) ls h =
  Nat.max h (fold_left (fun h lv => if PyStr.contains (fst lv) d && Nat.ltb h (snd lv) then snd lv else h) ls 0).
Proof.
  revert h. induction ls as [|lv ls IH]; intro h; simpl; [lia|].
  rewrite IH. rewrite (IH (if PyStr.contains (fst lv) d && Nat.ltb 0 (snd lv) then snd lv else 0)).
  destruct (PyStr.contains (fst lv) d); simpl;
    [destruct (Nat.ltb_spec h (snd lv)), (Nat.ltb_spec 0 (snd lv)) |]; lia.
Qed.

Lemma raise_level_max (d : string) (h : nat) : raise_level d h = Nat.max h (raise_level d 0).
Proof. apply raise_level_gen. Qed.

Lemma highest_level_list_max (l : list EduEntry) (h : nat) :
  fold_left (fun highest_level edu => raise_level (degree_lower edu) highest_level) l h =
  Nat.max h (list_max (map (fun e => raise_level (degree_lower e) 0) l)).
Proof.
  revert h. induction l as [|e l IH]; intro h; simpl; [lia|].
  rewrite IH, raise_level_max. lia.
Qed.

Lemma raise_level_bounds (d : string) :
  raise_level d 0 <= 5 /\
  (raise_level d 0 = 0 <->
   forallb (fun lv => negb (PyStr.contains (fst lv) d)) education_levels = true).
Proof.
  unfold raise_level, education_levels. cbn [fold_left fst snd forallb].
  destruct (PyStr.contains "phd" d), (PyStr.contains "master" d), (PyStr.contains "bachelor" d),
    (PyStr.contains "associate" d), (PyStr.contains "high school" d);
    cbn; split; try lia; split; intro H; try discriminate; try lia; reflexivity.
Qed.

(** X: highest education *)
(** X5: [get_highest_education_level] of a concatenation is the maximum of
    the levels of the parts; the level is at most 5; and it is 0 exactly
    when no lowered degree contains one of the level names. *)
Theorem X5_highest_education_level (l1 l2 : list EduEntry) :
  get_highest_education_level (l1 ++ l2) =
    Nat.max (get_highest_education_level l1) (get_highest_education_level l2) /\
  get_highest_education_level l1 <= 5 /\
  (get_highest_education_level l1 = 0 <->
   Forall (fun e => forallb (fun lv => negb (PyStr.contains (fst lv) (degree_lower e)))
                            education_levels = true) l1).
Proof.
  unfold get_highest_education_level. rewrite !highest_level_list_max. cbn [Nat.max].
  rewrite map_app, list_max_app. split; [reflexivity|].
  split.
  - apply list_max_le, Forall_forall. intros k Hk. apply in_map_iff in Hk.
    destruct Hk as (e & <- & _). apply raise_level_bounds.
  - split.
    + intro H. apply Forall_forall. intros e He. apply (raise_level_bounds (degree_lower e)).
      assert (Hle : list_max (map (fun e => raise_level (degree_lower e) 0) l1) <= 0) by lia.
      apply list_max_le in Hle. rewrite Forall_forall in Hle.
      specialize (Hle (raise_level (degree_lower e) 0) (in_map _ _ _ He)). lia.
    + intro H. apply Nat.le_0_r, list_max_le, Forall_forall. intros k Hk. apply in_map_iff in Hk.
      destruct Hk as (e & <- & He). rewrite Forall_forall in H.
      apply (raise_level_bounds (degree_lower e)) in H; [lia | exact He].
Qed.

(** ** Digits, education names and rounding *)








(** *** [round(x, 2)] keeps integer bounds *)




(** ** [generate_global_matches] *)

Lemma set_inter_length (a b : list string) : NoDup a -> List.length (set_inter a b) <= List.length b.
Proof.
  intro Ha. apply NoDup_incl_length.
  - apply NoDup_filter, Ha.
  - intros x Hx. unfold set_inter in Hx. apply filter_In in Hx. apply mem_In, Hx.
Qed.



Lemma category_match_dict (cset : list string) (level : string) (n : nat) (kvs : list (string * pyval))
    (c : JobCategory) :
  category_match cset level n (PDict kvs) c <> None.
Proof. unfold category_match. simpl. discriminate. Qed.

Lemma category_match_nondict (cset : list string) (level : string) (n : nat) (v : pyval)
    (c : JobCategory) :
  is_dict v = false -> category_match cset level n v c = None.
Proof. intro H. unfold category_match, obind. destruct v; try discriminate H; reflexivity. Qed.

(** X: raises iff reply not dict *)
(** X6: [generate_global_matches] raises exactly when the analysis reply
    parses to a JSON value that is not an object; a failed analysis call
    (handled as [{}]) never makes it raise. *)
Theorem X6_global_matches_raise (c : Candidate) (reply : option pyval) :
  generate_global_matches c reply = None <-> exists v, reply = Some v /\ is_dict v = false.
Proof.
  unfold generate_global_matches, obind. split.
  - intro H. destruct (mapM _ global_job_categories) eqn:E; [discriminate|]. clear H.
    destruct (is_dict (batch_analyze_categories reply)) eqn:Hd.
    + exfalso. revert E. apply mapM_Some. intros x _.
      destruct (batch_analyze_categories reply) as [| | | |kvs]; try discriminate Hd.
      apply category_match_dict.
    + destruct reply as [v|]; [|discriminate Hd].
      exists v. split; [reflexivity | exact Hd].
  - intros (v & -> & Hv). unfold global_job_categories. cbn [mapM obind].
    rewrite category_match_nondict by exact Hv. reflexivity.
Qed.



(** ** The catalog cache *)












(** ** [get_job_categories] and [get_skills_distribution] *)

Lemma str_compare_trans (a b c : string) :
  String.compare a b = Lt -> String.compare b c = Lt -> String.compare a c = Lt.
Proof.
  revert b c. induction a as [|x a IH]; intros [|y b] [|z c]; simpl; try discriminate; try reflexivity.
  unfold Ascii.compare.
  destruct (N.compare_spec (N_of_ascii x) (N_of_ascii y)) as [Exy|Exy|Exy];
  destruct (N.compare_spec (N_of_ascii y) (N_of_ascii z)) as [Eyz|Eyz|Eyz];
  intros H1 H2; try discriminate.
  - replace (N.compare (N_of_ascii x) (N_of_ascii z)) with Eq
      by (symmetry; apply N.compare_eq_iff; lia).
    exact (IH _ _ H1 H2).
  - replace (N.compare (N_of_ascii x) (N_of_ascii z)) with Lt
      by (symmetry; apply N.compare_lt_iff; lia). reflexivity.
  - replace (N.compare (N_of_ascii x) (N_of_ascii z)) with Lt
      by (symmetry; apply N.compare_lt_iff; lia). reflexivity.
  - replace (N.compare (N_of_ascii x) (N_of_ascii z)) with Lt
      by (symmetry; apply N.compare_lt_iff; lia). reflexivity.
Qed.

Lemma str_ltb_lt (a b : string) : String.ltb a b = true <-> String.compare a b = Lt.
Proof. unfold String.ltb. destruct (String.compare a b); split; congruence. Qed.

Lemma insert_str_perm (x : string) (l : list string) : Permutation (insert_str x l) (x :: l).
Proof.
  induction l as [|y r IH]; simpl; [reflexivity|].
  destruct (String.ltb x y); [reflexivity|].
  eapply perm_trans; [apply perm_skip; exact IH | apply perm_swap].
Qed.

Lemma insert_str_sorted (x : string) (l : list string) :
  StronglySorted (fun a b => String.ltb a b = true) l -> ~ In x l ->
  StronglySorted (fun a b => String.ltb a b = true) (insert_str x l).
Proof.
  induction l as [|y r IH]; intros HS Hx; simpl.
  - repeat constructor.
  - apply StronglySorted_inv in HS as [Hr Hy].
    destruct (String.ltb x y) eqn:E.
    + constructor; [constructor; assumption|].
      constructor; [exact E|].
      apply Forall_forall. intros z Hz. apply (proj1 (Forall_forall _ _) Hy) in Hz.
      apply str_ltb_lt. apply str_ltb_lt in E, Hz. exact (str_compare_trans _ _ _ E Hz).
    + assert (Hyx : String.ltb y x = true).
      { apply str_ltb_lt. rewrite String.compare_antisym.
        unfold String.ltb in E.
        destruct (String.compare x y) eqn:C; try discriminate; [|reflexivity].
        apply String.compare_eq_iff in C. subst. exfalso. apply Hx. left. reflexivity. }
      constructor; [apply IH; [exact Hr | intro H; apply Hx; right; exact H]|].
      apply Forall_forall. intros z Hz.
      apply (Permutation_in _ (insert_str_perm x r)) in Hz as [<-|Hz]; [exact Hyx|].
      exact (proj1 (Forall_forall _ _) Hy z Hz).
Qed.

Lemma sorted_strings_spec (l : list string) :
  NoDup l ->
  StronglySorted (fun a b => String.ltb a b = true) (sorted_strings l) /\
  Permutation (sorted_strings l) l.
Proof.
  unfold sorted_strings. intro Hn.
  assert (G : forall acc, StronglySorted (fun a b => String.ltb a b = true) acc ->
                NoDup (acc ++ l) ->
                StronglySorted (fun a b => String.ltb a b = true)
                  (fold_left (fun acc x => insert_str x acc) l acc) /\
                Permutation (fold_left (fun acc x => insert_str x acc) l acc) (acc ++ l)).
  { clear. induction l as [|x l IH]; intros acc HS Hn; simpl.
    - rewrite app_nil_r. split; [exact HS | reflexivity].
    - assert (Hx : ~ In x acc).
      { intro Hin. apply (NoDup_remove_2 acc l x Hn). apply in_or_app. left. exact Hin. }
      assert (Hn' : NoDup (insert_str x acc ++ l)).
      { eapply Permutation_NoDup; [|exact Hn]. apply Permutation_sym.
        eapply perm_trans; [apply Permutation_app_tail, insert_str_perm|].
        simpl. apply Permutation_middle. }
      destruct (IH (insert_str x acc) (insert_str_sorted x acc HS Hx) Hn') as [H1 H2].
      split; [exact H1|]. eapply perm_trans; [exact H2|].
      eapply perm_trans; [apply Permutation_app_tail, insert_str_perm|].
      simpl. apply Permutation_middle. }
  exact (G [] (SSorted_nil _) Hn).
Qed.

(** X10: [get_job_categories] returns a strictly increasing list of strings,
    hence without duplicates, made of exactly the roles of the catalog. *)
Theorem X10_job_categories (jobs : list Job) :
  StronglySorted (fun a b => String.ltb a b = true) (get_job_categories jobs) /\
  (forall r, In r (get_job_categories jobs) <-> exists j, In j jobs /\ role j = r).
Proof.
  unfold get_job_categories.
  destruct (sorted_strings_spec _ (set_of_NoDup (map role jobs))) as [H1 H2].
  split; [exact H1|]. intro r. split.
  - intro H. apply (Permutation_in _ H2), set_of_In, in_map_iff in H.
    destruct H as (j & E & Hj). exists j. split; assumption.
  - intros (j & Hj & E). apply (Permutation_in _ (Permutation_sym H2)), set_of_In, in_map_iff.
    exists j. split; assumption.
Qed.

(** *** the skills counter *)

Lemma count_skill_keys (x : string) (d : list (string * nat)) :
  map fst (count_skill x d) = if mem x (map fst d) then map fst d else (map fst d ++ [x]).
Proof.
  induction d as [|[k m] r IH]; simpl; [reflexivity|].
  destruct (String.eqb k x) eqn:E.
  - apply String.eqb_eq in E. subst. rewrite String.eqb_refl. reflexivity.
  - rewrite String.eqb_sym, E. simpl. rewrite IH. destruct (mem x (map fst r)); reflexivity.
Qed.

Lemma count_skill_sum (x : string) (d : list (string * nat)) :
  list_sum (map snd (count_skill x d)) = S (list_sum (map snd d)).
Proof.
  induction d as [|[k m] r IH]; simpl; [reflexivity|].
  destruct (String.eqb k x); simpl; [reflexivity | rewrite IH; lia].
Qed.

Lemma count_skill_In (x s : string) (n : nat) (d : list (string * nat)) :
  NoDup (map fst d) -> In (s, n) (count_skill x d) ->
  (s <> x /\ In (s, n) d) \/
  (s = x /\ ((n = 1 /\ ~ In x (map fst d)) \/ (In (x, pred n) d /\ n <> 0))).
Proof.
  induction d as [|[k m] r IH]; intros Hn H; simpl in H.
  - destruct H as [H|[]]. injection H as <- <-. right. split; [reflexivity|]. left. split; [reflexivity | simpl; tauto].
  - inversion Hn as [|? ? Hk Hr]; subst.
    destruct (String.eqb k x) eqn:E.
    + apply String.eqb_eq in E. subst k. destruct H as [H|H].
      * injection H as <- <-. right. split; [reflexivity|]. right. split; [left; reflexivity | discriminate].
      * left. split; [|right; exact H].
        intros ->. apply Hk. apply in_map_iff. exists (x, n). split; [reflexivity | exact H].
    + apply String.eqb_neq in E. destruct H as [H|H].
      * injection H as <- <-. left. split; [exact E | left; reflexivity].
      * destruct (IH Hr H) as [[H1 H2]|[H1 [[H2 H3]|[H2 H3]]]].
        -- left. split; [exact H1 | right; exact H2].
        -- right. split; [exact H1|]. left. split; [exact H2|]. simpl. intros [?|?]; [congruence | tauto].
        -- right. split; [exact H1|]. right. split; [right; exact H2 | exact H3].
Qed.

Lemma count_skill_fold (l l0 : list string) (d : list (string * nat)) :
  NoDup (map fst d) ->
  (forall s, In s (map fst d) <-> In s l0) ->
  (forall s n, In (s, n) d -> n = count_occ string_dec l0 s) ->
  let d' := fold_left (fun d s => count_skill s d) l d in
  NoDup (map fst d') /\
  (forall s, In s (map fst d') <-> In s (l0 ++ l)) /\
  (forall s n, In (s, n) d' -> n = count_occ string_dec (l0 ++ l) s).
Proof.
  revert l0 d. induction l as [|x l IH]; intros l0 d Hn Hk Hc; cbv zeta; simpl.
  - rewrite app_nil_r. split; [exact Hn | split; assumption].
  - replace (l0 ++ x :: l) with ((l0 ++ [x]) ++ l) by (rewrite <- app_assoc; reflexivity).
    apply IH.
    + rewrite count_skill_keys. destruct (mem x (map fst d)) eqn:E; [exact Hn|].
      apply NoDup_app; [exact Hn | repeat constructor; simpl; tauto|].
      intros y Hy [<-|[]]. apply (proj2 (mem_In x _)) in Hy. congruence.
    + intro s. rewrite count_skill_keys, in_app_iff, <- Hk. simpl.
      destruct (mem x (map fst d)) eqn:E.
      * apply mem_In in E. split; [tauto|]. intros [H|[<-|[]]]; assumption.
      * rewrite in_app_iff. simpl. tauto.
    + intros s n H. rewrite count_occ_app. simpl.
      destruct (count_skill_In x s n d Hn H) as [[H1 H2]|[-> [[-> H2]|[H2 H3]]]].
      * rewrite (Hc s n H2). destruct (string_dec x s); [congruence | lia].
      * destruct (string_dec x x) as [_|]; [|congruence].
        rewrite Hk in H2. rewrite (proj1 (count_occ_not_In string_dec l0 x) H2). reflexivity.
      * rewrite <- (Hc x (pred n) H2). destruct (string_dec x x) as [_|]; [lia | congruence].
Qed.

Lemma fold_left_flat_map {A B C} (g : C -> B -> C) (f : A -> list B) (l : list A) (c : C) :
  fold_left (fun c a => fold_left g (f a) c) l c = fold_left g (flat_map f l) c.
Proof.
  revert c. induction l as [|a l IH]; intro c; simpl; [reflexivity|].
  rewrite fold_left_app. apply IH.
Qed.

Lemma skills_count_spec (jobs : list Job) :
  NoDup (map fst (skills_count jobs)) /\
  (forall s, In s (map fst (skills_count jobs)) <-> In s (all_skills jobs)) /\
  (forall s n, In (s, n) (skills_count jobs) -> n = count_occ string_dec (all_skills jobs) s) /\
  list_sum (map snd (skills_count jobs)) = List.length (all_skills jobs).
Proof.
  unfold skills_count. rewrite (fold_left_flat_map _ (fun j => req_skills (requirements j))).
  fold (all_skills jobs).
  destruct (count_skill_fold (all_skills jobs) [] [] (NoDup_nil _) ltac:(simpl; tauto)
              ltac:(simpl; tauto)) as [H1 [H2 H3]].
  split; [exact H1|]. split; [exact H2|]. split; [exact H3|].
  assert (G : forall l d, list_sum (map snd (fold_left (fun d s => count_skill s d) l d)) =
                          list_sum (map snd d) + List.length l).
  { clear. induction l as [|x l IH]; intro d; simpl; [lia|]. rewrite IH, count_skill_sum. simpl. lia. }
  rewrite G. reflexivity.
Qed.

Lemma sorted_impl {A} (R R' : A -> A -> Prop) (l : list A) :
  (forall a b, R a b -> R' a b) -> Sorted R l -> Sorted R' l.
Proof.
  intros HR HS. induction HS as [|a l HS IH Hhd]; constructor; [exact IH|].
  destruct Hhd; constructor. apply HR. assumption.
Qed.

Lemma list_sum_perm (l l' : list nat) : Permutation l l' -> list_sum l = list_sum l'.
Proof. induction 1; simpl; lia. Qed.

(** X11: [get_skills_distribution] lists every skill of the catalog once,
    and only those, with its number of occurrences across all jobs, sorted
    by non-increasing count; the counts add up to the number of skill
    entries. *)
Theorem X11_skills_distribution (jobs : list Job) :
  let d := get_skills_distribution jobs in
  NoDup (map fst d) /\
  (forall s, In s (map fst d) <-> In s (all_skills jobs)) /\
  (forall s n, In (s, n) d -> n = count_occ string_dec (all_skills jobs) s) /\
  Sorted (fun a b => snd b <= snd a) d /\
  list_sum (map snd d) = List.length (all_skills jobs).
Proof.
  cbv zeta. unfold get_skills_distribution.
  pose proof (sort_desc_by_perm (fun kv : string * nat => inject_Z (Z.of_nat (snd kv)))
                (skills_count jobs)) as HP.
  destruct (skills_count_spec jobs) as [H1 [H2 [H3 H4]]].
  split; [exact (Permutation_NoDup (Permutation_map fst (Permutation_sym HP)) H1)|].
  split; [intro s; rewrite <- H2; split; apply Permutation_in;
          [|apply Permutation_sym]; apply Permutation_map; exact HP|].
  split; [intros s n H; apply H3; exact (Permutation_in _ HP H)|].
  split.
  - pose proof (sort_desc_by_sorted (fun kv : string * nat => inject_Z (Z.of_nat (snd kv)))
                  (skills_count jobs)) as HS.
    refine (sorted_impl _ _ _ _ HS). intros a b H. rewrite <- Zle_Qle in H. lia.
  - rewrite <- H4. apply list_sum_perm, Permutation_map, HP.
Qed.

(** ** [_parse_experience] and [allowed_file] *)

(** *** words of [str.split()] *)









(** *** [allowed_file] *)

Lemma contains_app_r (n a b : string) :
  PyStr.contains n b = true -> PyStr.contains n (a ++ b) = true.
Proof.
  induction a as [|x a IH]; intro H; [exact H|].
  change (PyStr.contains n (String x (a ++ b)) = true).
  change (PyStr.contains n (String x (a ++ b))) with
    (if String.prefix n (String x (a ++ b)) then true else PyStr.contains n (a ++ b)).
  destruct (String.prefix n (String x (a ++ b))); [reflexivity | apply IH, H].
Qed.

Lemma contains_dot_none (s : string) :
  PyStr.count_char "." s = 0 -> PyStr.contains "." s = false.
Proof.
  induction s as [|x s IH]; intro H; [reflexivity|].
  simpl in H. destruct (Ascii.eqb x ".") eqn:E; [discriminate|].
  change (PyStr.contains "." (String x s)) with
    (if String.prefix "." (String x s) then true else PyStr.contains "." s).
  change (String.prefix "." (String x s)) with (if ascii_dec "." x then String.prefix "" s else false).
  destruct (ascii_dec "." x) as [<-|]; [discriminate|].
  apply IH, H.
Qed.

Lemma split_none (c : ascii) (s : string) :
  PyStr.count_char c s = 0 -> PyStr.split c s = [s].
Proof.
  induction s as [|x s IH]; intro H; [reflexivity|].
  simpl in H |- *. destruct (Ascii.eqb x c); [discriminate|]. rewrite IH by exact H. reflexivity.
Qed.

Lemma last_cons_ne {A} (a : A) (t : list A) (d : A) : t <> [] -> last (a :: t) d = last t d.
Proof. destruct t; [congruence | reflexivity]. Qed.

Lemma split_last_app (c : ascii) (a b : string) (d : string) :
  last (PyStr.split c (a ++ String c b)) d = last (PyStr.split c b) d.
Proof.
  induction a as [|x a IH]; simpl.
  - rewrite Ascii.eqb_refl. apply last_cons_ne.
    pose proof (split_length c b). destruct (PyStr.split c b); [discriminate | congruence].
  - assert (Hc : PyStr.count_char c (a ++ String c b) <> 0).
    { clear. induction a as [|y a IH]; simpl; [rewrite Ascii.eqb_refl; lia | lia]. }
    pose proof (split_length c (a ++ String c b)) as HL.
    destruct (Ascii.eqb x c).
    + rewrite last_cons_ne; [exact IH | destruct (PyStr.split c (a ++ String c b)); [discriminate | congruence]].
    + destruct (PyStr.split c (a ++ String c b)) as [|h t]; [discriminate|].
      destruct t as [|h' t]; [simpl in HL; lia|].
      rewrite <- IH. reflexivity.
Qed.

(** X13: a file name ending in a dot and an extension without dots is
    accepted by [allowed_file] exactly when the lowered extension is [pdf]
    or [docx], whatever comes before; a name without a dot is rejected. *)
Theorem X13_allowed_file (base ext : string) :
  PyStr.count_char "." ext = 0 ->
  allowed_file (base ++ "." ++ ext) = mem (PyStr.lower ext) ALLOWED_EXTENSIONS /\
  allowed_file ext = false.
Proof.
  intro H. unfold allowed_file. split.
  - rewrite contains_app_r by (destruct ext; reflexivity). cbn [andb].
    change (("." ++ ext)%string) with (String "." ext). rewrite split_last_app.
    rewrite split_none by exact H. reflexivity.
  - rewrite contains_dot_none by exact H. reflexivity.
Qed.

(** X13 on [cv.PDF] and [PDF]. *)
Lemma X13_allowed_file_witness :
  PyStr.count_char "." "PDF" = 0 /\
  (allowed_file ("cv" ++ "." ++ "PDF") = mem (PyStr.lower "PDF") ALLOWED_EXTENSIONS /\
   allowed_file "PDF" = false).
Proof.
  split; [reflexivity | apply X13_allowed_file; reflexivity].
Defined.

(** ** The scorer on its inputs, and the pre-filter scores *)

Lemma filter_split_perm {A} (f : A -> bool) (l : list A) :
  Permutation (filter f l ++ filter (fun x => negb (f x)) l) l.
Proof.
  induction l as [|x l IH]; simpl; [reflexivity|].
  destruct (f x); simpl.
  - apply perm_skip, IH.
  - eapply perm_trans; [apply Permutation_sym, Permutation_middle | apply perm_skip, IH].
Qed.

Lemma experience_adjust_fields (cand e : pyval) (a a' : Analysis) :
  experience_adjust cand e a = Some a' ->
  matching_skills a' = matching_skills a /\ missing_skills a' = missing_skills a /\
  recommendations a' = recommendations a.
Proof.
  unfold experience_adjust, obind. intro H.
  inv_binds H; injection H as <-; simpl; auto.
Qed.

Lemma lower_set_NoDup (v : pyval) (l : list string) : lower_set v = Some l -> NoDup l.
Proof.
  unfold lower_set, obind. intro H. inv_binds H. injection H as <-. apply set_of_NoDup.
Qed.

Lemma base_recommendations (req matching missing : list string) (s : Q) :
  1 <= List.length (recommendations (base_analysis req matching missing s)) <= 3.
Proof.
  unfold base_analysis. cbn [recommendations].
  destruct missing as [|m ms]; [simpl; lia|].
  rewrite length_map, length_firstn. cbn [List.length]. lia.
Qed.

(** X14: for every input, the matching and missing skills of the scorer's
    analysis together have no duplicate, and it gives one to three
    recommendations; when the body does not fall back, matching and missing
    skills split the lowered required set: matching are those the candidate
    has, missing those the candidate lacks. *)
Theorem X14_scorer_skill_lists (cand jr : pyval) :
  let a := ai_analysis (calculate_match_score_sync cand jr) in
  NoDup (matching_skills a ++ missing_skills a) /\
  1 <= List.length (recommendations a) <= 3 /\
  (forall r, score_body cand jr = Some r ->
     exists req cs,
       Permutation (matching_skills (ai_analysis r) ++ missing_skills (ai_analysis r)) req /\
       (forall s, In s (matching_skills (ai_analysis r)) <-> In s req /\ In s cs) /\
       (forall s, In s (missing_skills (ai_analysis r)) <-> In s req /\ ~ In s cs)).
Proof.
  assert (Hb : forall r, score_body cand jr = Some r ->
     exists req cs,
       NoDup req /\
       matching_skills (ai_analysis r) = set_inter req cs /\
       missing_skills (ai_analysis r) = set_diff req cs /\
       1 <= List.length (recommendations (ai_analysis r)) <= 3).
  { intros r H. destruct (score_body_shape _ _ _ H) as (v & cv & req & cs & a & _ & Hreq & _ & _ & _ & Ha & ->).
    exists req, cs. cbn [ai_analysis].
    destruct (experience_adjust_fields _ _ _ _ Ha) as (-> & -> & ->).
    split; [exact (lower_set_NoDup _ _ Hreq)|]. split; [reflexivity|]. split; [reflexivity|].
    apply base_recommendations. }
  cbv zeta. split; [|split].
  - unfold calculate_match_score_sync.
    destruct (score_body cand jr) as [r|] eqn:E; [|constructor].
    destruct (Hb r eq_refl) as (req & cs & Hn & -> & -> & _).
    exact (Permutation_NoDup (Permutation_sym (filter_split_perm _ req)) Hn).
  - unfold calculate_match_score_sync.
    destruct (score_body cand jr) as [r|] eqn:E; [|simpl; lia].
    destruct (Hb r eq_refl) as (req & cs & _ & _ & _ & H). exact H.
  - intros r H. destruct (Hb r H) as (req & cs & Hn & -> & -> & _).
    exists req, cs. split; [apply filter_split_perm|]. split; intro s.
    + unfold set_inter. rewrite filter_In, mem_In. tauto.
    + unfold set_diff. rewrite filter_In, negb_true_iff, <- not_true_iff_false, mem_In. tauto.
Qed.

(** X15: every job [_pre_filter_jobs] returns carries a [preliminary_score]
    in [0, 100]. *)
Theorem X15_prefilter_scores (jobs : list Job) (c : Candidate) :
  Forall (fun j => exists q, preliminary_score j = Some q /\ in_0_100 q) (snd (pre_filter_jobs jobs c)).
Proof.
  unfold pre_filter_jobs.
  pose proof (filter_loop_kept (candidate_skill_set c) jobs) as Hk.
  destruct (filter_loop (candidate_skill_set c) jobs) as [cat f]. cbn [snd] in Hk |- *. subst f.
  apply Forall_forall. intros j Hj.
  assert (Hj' : In j (sort_desc (kept_jobs (candidate_skill_set c) jobs)))
    by (rewrite <- (firstn_skipn 50 (sort_desc _)); apply in_or_app; left; exact Hj).
  clear Hj. rename Hj' into Hj. unfold sort_desc in Hj.
  apply (Permutation_in _ (sort_fold_perm _ [])) in Hj. simpl in Hj.
  unfold kept_jobs in Hj. apply in_flat_map in Hj as (j0 & _ & Hj).
  destruct (prefilter_step (candidate_skill_set c) j0) as [j'|] eqn:E; [|destruct Hj].
  destruct Hj as [<-|[]].
  unfold prefilter_step in E.
  destruct (is_tech_job j0); [|discriminate].
  destruct (job_skill_set j0) as [|x xs] eqn:Ejs.
  - injection E as <-. exists 50%Q. split; [reflexivity|]. unfold in_0_100. split; lra.
  - destruct (_ || _); [|discriminate]. injection E as <-.
    eexists. split; [reflexivity|]. unfold skill_score. apply ratio_bounds.
    + apply set_inter_length. unfold candidate_skill_set. apply set_of_NoDup.
    + simpl. lia.
Qed.

Lemma score_body_catalog (c : Candidate) (r : Requirements) :
  exists a,
    score_body (cand_to_py c) (req_to_py r) = Some
      {| total_score := match_score a;
         skill_match := skill_match_score (set_of (map PyStr.lower (req_skills r)))
                          (set_inter (set_of (map PyStr.lower (req_skills r)))
                                     (set_of (map PyStr.lower (cand_skills c))));
         experience_match := match_score a; education_match := match_score a;
         ai_analysis := a |} /\
    matching_skills a = set_inter (set_of (map PyStr.lower (req_skills r)))
                                  (set_of (map PyStr.lower (cand_skills c))) /\
    missing_skills a = set_diff (set_of (map PyStr.lower (req_skills r)))
                                (set_of (map PyStr.lower (cand_skills c))).
Proof.
  unfold score_body. cbn -[lower_set strs experience_adjust].
  rewrite !lower_set_strs. cbn -[experience_adjust base_analysis skill_match_score set_inter set_diff set_of].
  rewrite ?mapM_py_lower_strs. cbn [obind].
  match goal with |- context [experience_adjust ?x ?y ?b] =>
    assert (He : exists a', experience_adjust x y b = Some a') end.
  { unfold experience_adjust. cbn [truthy List.length Nat.eqb negb].
    unfold cand_to_py. cbn [py_get dict_get find fst String.eqb].
    destruct (cand_experience c) as [|e es] eqn:Ec; [eexists; reflexivity|].
    cbn [map truthy List.length Nat.eqb negb obind py_iter].
    cbn [dict_get find fst snd String.eqb Ascii.eqb Bool.eqb andb truthy List.length Nat.eqb negb py_iter obind].
    change (exp_entry_to_py e :: map exp_entry_to_py es) with (map exp_entry_to_py (e :: es)).
    rewrite mapM_period_years. cbn [obind].
    destruct (_ <=? _)%Z; eexists; reflexivity. }
  destruct He as [a' He]. rewrite He. cbn [obind].
  exists a'. destruct (experience_adjust_fields _ _ _ _ He) as (-> & -> & _).
  split; [reflexivity | split; reflexivity].
Qed.

(** X16: on a candidate record and the requirements of a loaded job, the
    scorer never falls back; its matching and missing skills are a
    permutation of the lowered required skills; a skill is matching exactly
    when it occurs, lowered, among both the required and the candidate's
    skills; and [skill_match] is the score computed from them. *)
Theorem X16_scorer_catalog_inputs (c : Candidate) (r : Requirements) :
  let ms := calculate_match_score_sync (cand_to_py c) (req_to_py r) in
  let a := ai_analysis ms in
  score_body (cand_to_py c) (req_to_py r) = Some ms /\
  Permutation (matching_skills a ++ missing_skills a) (set_of (map PyStr.lower (req_skills r))) /\
  (forall s, In s (matching_skills a) <->
             In s (map PyStr.lower (req_skills r)) /\ In s (map PyStr.lower (cand_skills c))) /\
  skill_match ms = skill_match_score (set_of (map PyStr.lower (req_skills r))) (matching_skills a).
Proof.
  destruct (score_body_catalog c r) as (a & H & Hm & Hx).
  cbv zeta. unfold calculate_match_score_sync. rewrite H. cbn [ai_analysis skill_match].
  split; [reflexivity|]. rewrite Hm, Hx. split; [apply filter_split_perm|]. split; [|reflexivity].
  intro s. unfold set_inter. rewrite filter_In, mem_In, !set_of_In. tauto.
Qed.
